(** * NGG compliance report: the browser-side renderer

    A shallow embedding of [report_templates/static/js/report.js]: the
    recommendation catalog, [renderReport], [toggleEvidence] and
    [drawSimpleChart], together with the fragment of the browser they run
    against (the page's display fields, the findings table, the
    recommendations list, the chart surface and the console).

    Conventions of the model.
    - The numbers of a report are integers ([Z]).  Where the script adds
      or prints one, it is the double nearest to it that is added or
      printed ([Js.add], [Js.number_text]); the chart drawer divides
      counts, and its angles and coordinates are real numbers ([R]).
    - A JavaScript object used as a record is a Rocq record whose optional
      properties are [option]s or the value [VUndefined]; the catalog, an
      object literal used as a dictionary, is a [gmap] of its own
      properties together with what it inherits from [Object.prototype].
    - Markup assigned through [innerHTML] / [insertAdjacentHTML] is kept
      twice: as the string the template literal evaluates to, and as the
      element tree that string is the markup of ([markup_of] relates the
      two).  The tree is what the browser builds when the interpolated
      strings hold no markup themselves; [Html.parse] models the
      browser's parser, [row_cells_parse] and [list_item_parse] show the
      agreement, and the statements about the content of rows and items
      are made for such strings.
    - A statement that can throw runs in the monad [JS]: a state
      transformer over [Page] that ends in [Normal] or [Throw]. *)

From Stdlib Require Import ZArith String Ascii List Reals Lra Lia.
From stdpp Require Import base option list gmap strings pretty.

Set Warnings "-register-all".

Local Open Scope string_scope.
Local Open Scope list_scope.
Local Open Scope Z_scope.

(** ** JavaScript values and strings *)

Module Js.

(** The values the script meets: what a report carries in its metadata,
    and what indexing an object can return.  [VNumber n] is the Number
    that the integer numeral [n] denotes, that is, the double nearest to
    [n]; [VFunction name] is the built-in function of that name and
    [VObject] an ordinary object. *)
Inductive value :=
  | VUndefined
  | VNumber (n : Z)
  | VString (s : string)
  | VFunction (name : string)
  | VObject.

(** ToBoolean. *)
Definition truthy (v : value) : bool :=
  match v with
  | VUndefined => false
  | VNumber n => negb (n =? 0)
  | VString s => negb (String.eqb s EmptyString)
  | VFunction _ => true
  | VObject => true
  end.

(** [a || b]. *)
Definition or (a b : value) : value := if truthy a then a else b.

(** The double nearest to the integer [z], ties to the even significand
    (53 bits); integers below 2^53 in magnitude are doubles themselves.
    From 2^1024 on the result stands for an infinity. *)
Definition round_to_double (z : Z) : Z :=
  let a := Z.abs z in
  if a <? 2 ^ 53 then z
  else
    let shift := Z.log2 a - 52 in
    let q := Z.shiftr a shift in
    let r := a - Z.shiftl q shift in
    let half := Z.shiftl 1 (shift - 1) in
    let q' := if ((half <? r) || ((r =? half) && Z.odd q))%bool then q + 1 else q in
    Z.sgn z * Z.shiftl q' shift.

Definition is_finite (z : Z) : bool := Z.abs (round_to_double z) <? 2 ^ 1024.

(** [a + b] on Numbers: the exact sum, rounded. *)
Definition add (a b : Z) : Z :=
  round_to_double (round_to_double a + round_to_double b).

Definition digits (x : Z) : Z := Z.of_nat (String.length (pretty x)).

(** Number::toString chooses the decimal with the fewest significant
    digits that reads back as the double [x], the nearest to [x] when there
    are several: [k] counts the digits tried, the candidates are the two
    multiples of [10 ^ (digits x - k)] around [x]. *)
Fixpoint shortest (fuel : nat) (k : Z) (x : Z) : Z :=
  match fuel with
  | O => x
  | S fuel' =>
      let e := digits x - k in
      if e <? 0 then x
      else
        let lo := (x / 10 ^ e) * 10 ^ e in
        let hi := lo + 10 ^ e in
        let lo_ok := round_to_double lo =? x in
        let hi_ok := round_to_double hi =? x in
        if (lo_ok && hi_ok)%bool then
          (if x - lo <? hi - x then lo
           else if hi - x <? x - lo then hi
           else if Z.even (lo / 10 ^ e) then lo else hi)
        else if lo_ok then lo
        else if hi_ok then hi
        else shortest fuel' (k + 1) x
  end.

Fixpoint strip_zeros (s : string) : string :=
  match s with
  | EmptyString => EmptyString
  | String c s' =>
      match strip_zeros s' with
      | EmptyString => if Ascii.eqb c "0" then EmptyString else String c EmptyString
      | t => String c t
      end
  end.

(** The form [d.ddde+n] of a positive integer. *)
Definition exponent_form (v : Z) : string :=
  let all := pretty v in
  let n := Z.of_nat (String.length all) in
  match strip_zeros all with
  | String d EmptyString => String d ("e+" +:+ pretty (n - 1))
  | String d rest => String d ("." +:+ rest +:+ "e+" +:+ pretty (n - 1))
  | EmptyString => all
  end.

(** Number::toString of the Number denoted by [n]: the decimal numeral
    below 2^53, the shortest digits that read back as the double, followed
    by zeros, below 10^21, the exponent form from there on. *)
Definition number_text (n : Z) : string :=
  let v := round_to_double n in
  let a := Z.abs v in
  if a <? 2 ^ 53 then pretty v
  else
    let body :=
      if 2 ^ 1024 <=? a then "Infinity"
      else
        let m := shortest 20 1 a in
        if digits m <=? 21 then pretty m else exponent_form m in
    if v <? 0 then "-" +:+ body else body.

(** ToString, as applied when a value is stored in [textContent] or
    interpolated in a template literal.  The text of a built-in function
    is the engine's own, of the form [function name() { [native code] }]
    up to white space; this is how V8 writes it. *)
Definition ToString (v : value) : string :=
  match v with
  | VUndefined => "undefined"
  | VNumber n => number_text n
  | VString s => s
  | VFunction name => "function " +:+ name +:+ "() { [native code] }"
  | VObject => "[object Object]"
  end.

Definition lower_ascii (c : ascii) : ascii :=
  let n := nat_of_ascii c in
  if (Nat.leb 65 n && Nat.leb n 90)%bool then ascii_of_nat (n + 32) else c.

(** [String.prototype.toLowerCase] on ASCII text. *)
Fixpoint toLowerCase (s : string) : string :=
  match s with
  | EmptyString => EmptyString
  | String c s' => String (lower_ascii c) (toLowerCase s')
  end.

Definition dq : string := String "034" EmptyString.
Definition nl : string := String "010" EmptyString.

Fixpoint spaces (n : nat) : string :=
  match n with
  | O => EmptyString
  | S n' => String " " (spaces n')
  end.

(** [Array.prototype.join]. *)
Fixpoint join (sep : string) (l : list string) : string :=
  match l with
  | [] => EmptyString
  | [x] => x
  | x :: l' => x +:+ sep +:+ join sep l'
  end.

End Js.

(** ** JSON.stringify(value, null, 2) *)

Module Json.

(** A JSON-compatible value; an object lists its properties in
    enumeration order. *)
Inductive json :=
  | JNull
  | JBool (b : bool)
  | JNumber (n : Z)
  | JString (s : string)
  | JArray (items : list json)
  | JObject (props : list (string * json)).

Definition hex_digit (n : nat) : ascii :=
  match n with
  | 0 => "0" | 1 => "1" | 2 => "2" | 3 => "3" | 4 => "4" | 5 => "5"
  | 6 => "6" | 7 => "7" | 8 => "8" | 9 => "9" | 10 => "a" | 11 => "b"
  | 12 => "c" | 13 => "d" | 14 => "e" | _ => "f"
  end%nat%char.

(** The escape of one code unit inside a quoted JSON string. *)
Definition escape_char (c : ascii) : string :=
  let n := nat_of_ascii c in
  if Nat.eqb n 34 then "\" +:+ Js.dq
  else if Nat.eqb n 92 then "\\"
  else if Nat.eqb n 8 then "\b"
  else if Nat.eqb n 12 then "\f"
  else if Nat.eqb n 10 then "\n"
  else if Nat.eqb n 13 then "\r"
  else if Nat.eqb n 9 then "\t"
  else if Nat.ltb n 32 then
    "\u00" +:+ String (hex_digit (n / 16)) (String (hex_digit (n mod 16)) EmptyString)
  else String c EmptyString.

Fixpoint escape (s : string) : string :=
  match s with
  | EmptyString => EmptyString
  | String c s' => escape_char c +:+ escape s'
  end.

Definition QuoteJSONString (s : string) : string :=
  Js.dq +:+ escape s +:+ Js.dq.

(** The gap of [JSON.stringify(_, null, 2)]. *)
Definition gap : string := Js.spaces 2.

(** SerializeJSONProperty at the current indentation. *)
Fixpoint SerializeJSONProperty (indent : string) (v : json) : string :=
  match v with
  | JNull => "null"
  | JBool true => "true"
  | JBool false => "false"
  | JNumber n => if Js.is_finite n then Js.number_text n else "null"
  | JString s => QuoteJSONString s
  | JArray items =>
      match items with
      | [] => "[]"
      | _ =>
          let stepback := indent in
          let indent := indent +:+ gap in
          "[" +:+ Js.nl +:+ indent
            +:+ Js.join ("," +:+ Js.nl +:+ indent)
                  (map (SerializeJSONProperty indent) items)
            +:+ Js.nl +:+ stepback +:+ "]"
      end
  | JObject props =>
      match props with
      | [] => "{}"
      | _ =>
          let stepback := indent in
          let indent := indent +:+ gap in
          "{" +:+ Js.nl +:+ indent
            +:+ Js.join ("," +:+ Js.nl +:+ indent)
                  (map (fun kv => QuoteJSONString (fst kv) +:+ ": "
                                    +:+ SerializeJSONProperty indent (snd kv))
                       props)
            +:+ Js.nl +:+ stepback +:+ "}"
      end
  end.

(** [JSON.stringify(v, null, 2)]; [None] is an absent ([undefined])
    value, for which the call returns [undefined]. *)
Definition stringify (v : option json) : Js.value :=
  match v with
  | None => Js.VUndefined
  | Some j => Js.VString (SerializeJSONProperty EmptyString j)
  end.

End Json.

(** ** The document tree *)

Module Dom.

(** A node is a run of text or an element: its tag, its attributes, the
    [display] property of its inline style (empty while unset) and its
    child nodes. *)
Inductive node :=
  | Text (s : string)
  | Elem (tag : string) (attrs : list (string * string)) (display : string)
         (kids : list node).

(** The position of a node below a list of roots: child indices, outermost
    first.  An element reference held by a script is such a position. *)
Definition path := list nat.

Fixpoint getAttribute (name : string) (attrs : list (string * string)) : option string :=
  match attrs with
  | [] => None
  | (k, v) :: attrs' => if String.eqb k name then Some v else getAttribute name attrs'
  end.

(** [element.id]: the [id] attribute, or the empty string. *)
Definition id_of (n : node) : string :=
  match n with
  | Text _ => EmptyString
  | Elem _ attrs _ _ => default EmptyString (getAttribute "id" attrs)
  end.

Definition className (n : node) : string :=
  match n with
  | Text _ => EmptyString
  | Elem _ attrs _ _ => default EmptyString (getAttribute "class" attrs)
  end.

(** [element.getAttribute(name)]; [None] is [null]. *)
Definition attribute (name : string) (n : node) : option string :=
  match n with
  | Text _ => None
  | Elem _ attrs _ _ => getAttribute name attrs
  end.

Definition tagName (n : node) : string :=
  match n with
  | Text _ => EmptyString
  | Elem tag _ _ _ => tag
  end.

Definition style_display (n : node) : string :=
  match n with
  | Text _ => EmptyString
  | Elem _ _ d _ => d
  end.

Definition childNodes (n : node) : list node :=
  match n with
  | Text _ => []
  | Elem _ _ _ kids => kids
  end.

Definition is_element (n : node) : bool :=
  match n with
  | Text _ => false
  | Elem _ _ _ _ => true
  end.

(** [element.children]: the child nodes that are elements. *)
Definition children (n : node) : list node := List.filter is_element (childNodes n).

(** [node.textContent] (getter): the text of all descendants, in order. *)
Fixpoint textContent (n : node) : string :=
  match n with
  | Text s => s
  | Elem _ _ _ kids =>
      (fix all (ks : list node) : string :=
         match ks with
         | [] => EmptyString
         | k :: ks' => textContent k +:+ all ks'
         end) kids
  end.

(** The attributes of a start tag, as written. *)
Definition attrs_markup (attrs : list (string * string)) : string :=
  foldr (fun kv acc => " " +:+ fst kv +:+ "=" +:+ Js.dq +:+ snd kv +:+ Js.dq +:+ acc)
        EmptyString attrs.

(** The markup a tree is written as.  Text is written verbatim; [display]
    is left out, the markup of the script setting no inline style. *)
Fixpoint markup_of (n : node) : string :=
  match n with
  | Text s => s
  | Elem tag attrs _ kids =>
      "<" +:+ tag +:+ attrs_markup attrs +:+ ">"
        +:+ (fix all (ks : list node) : string :=
               match ks with
               | [] => EmptyString
               | k :: ks' => markup_of k +:+ all ks'
               end) kids
        +:+ "</" +:+ tag +:+ ">"
  end.

Definition markup_of_nodes (l : list node) : string :=
  foldr (fun n acc => markup_of n +:+ acc) EmptyString l.

(** Whether [attrs] give the identifier [i]. *)
Definition has_id (i : string) (attrs : list (string * string)) : bool :=
  match getAttribute "id" attrs with
  | Some j => String.eqb j i
  | None => false
  end.

(** Search of one tree, in document order, for the first element whose
    [id] attribute is [i]; the answer is its position below the tree. *)
Fixpoint find_in_node (i : string) (n : node) : option path :=
  match n with
  | Text _ => None
  | Elem _ attrs _ kids =>
      if has_id i attrs then Some []
      else
        (fix scan (ks : list node) (k : nat) : option path :=
           match ks with
           | [] => None
           | c :: ks' =>
               match find_in_node i c with
               | Some p => Some (k :: p)
               | None => scan ks' (S k)
               end
           end) kids 0%nat
  end.

(** The same search over a list of sibling trees whose first member has
    index [k]. *)
Fixpoint find_in_nodes (i : string) (ks : list node) (k : nat) : option path :=
  match ks with
  | [] => None
  | c :: ks' =>
      match find_in_node i c with
      | Some p => Some (k :: p)
      | None => find_in_nodes i ks' (S k)
      end
  end.

(** [getElementById] below the roots [l]; the empty identifier names no
    element. *)
Definition getElementById (i : string) (l : list node) : option path :=
  if String.eqb i EmptyString then None else find_in_nodes i l 0%nat.

(** The node at a position. *)
Fixpoint node_at (l : list node) (p : path) : option node :=
  match p with
  | [] => None
  | [k] => l !! k
  | k :: p' =>
      match l !! k with
      | Some (Elem _ _ _ kids) => node_at kids p'
      | _ => None
      end
  end.

(** The siblings among which the node at a position lives. *)
Fixpoint siblings_at (l : list node) (p : path) : option (list node) :=
  match p with
  | [] => None
  | [k] => Some l
  | k :: p' =>
      match l !! k with
      | Some (Elem _ _ _ kids) => siblings_at kids p'
      | _ => None
      end
  end.

(** Index of the first element among [ks], whose first member has index
    [k]. *)
Fixpoint first_element (ks : list node) (k : nat) : option nat :=
  match ks with
  | [] => None
  | c :: ks' => if is_element c then Some k else first_element ks' (S k)
  end.

(** [element.nextElementSibling]: the position of the next sibling that is
    an element, if there is one. *)
Definition nextElementSibling (l : list node) (p : path) : option path :=
  match siblings_at l p, last p with
  | Some sibs, Some k =>
      match first_element (drop (S k) sibs) (S k) with
      | Some j => Some (removelast p ++ [j])
      | None => None
      end
  | _, _ => None
  end.

(** Replace the node at a position by its image under [g]. *)
Fixpoint modify_at (g : node -> node) (p : path) (l : list node) : list node :=
  match p with
  | [] => l
  | [k] => alter g k l
  | k :: p' =>
      alter (fun n => match n with
                      | Elem tag attrs d kids => Elem tag attrs d (modify_at g p' kids)
                      | Text _ => n
                      end) k l
  end.

(** [element.style.display = d]. *)
Definition set_display (d : string) (n : node) : node :=
  match n with
  | Elem tag attrs _ kids => Elem tag attrs d kids
  | Text _ => n
  end.

(** [element.textContent = s]: the children are replaced by one text
    node. *)
Definition set_textContent (s : string) (n : node) : node :=
  match n with
  | Elem tag attrs d _ => Elem tag attrs d [Text s]
  | Text _ => Text s
  end.

(** A tree without its empty text nodes: the parser creates none. *)
Fixpoint tidy (n : node) : list node :=
  match n with
  | Text EmptyString => []
  | Text _ => [n]
  | Elem tag attrs d kids => [Elem tag attrs d (flat_map tidy kids)]
  end.

Definition tidy_nodes (l : list node) : list node := flat_map tidy l.

End Dom.

(** ** The HTML fragment parser, as far as the templates need it *)

Module Html.

(** What the browser's parser makes of a string assigned to [innerHTML]
    or passed to [insertAdjacentHTML] (the HTML fragment parsing
    algorithm).  The tokenizer covers the data state and the tag states;
    the tree builder covers the cells of a row ([td], [th]) and, in
    flow content, [div], [pre], [button], [li], [span], [strong] and text.
    Whatever lies outside this part of the parser (character references,
    comments, other elements, a [style] attribute, NUL, carriage return,
    misnested [strong]) gives [None]: the model then says nothing about
    the page. *)

Inductive token :=
  | TStart (name : string) (attrs : list (string * string))
  | TEnd (name : string)
  | TChar (c : ascii).

Inductive state :=
  | Data
  | TagOpen
  | EndTagOpen
  | TagName
  | BeforeAttributeName
  | AttributeName
  | AfterAttributeName
  | BeforeAttributeValue
  | AttributeValueDoubleQuoted
  | AttributeValueSingleQuoted
  | AttributeValueUnquoted
  | AfterAttributeValueQuoted
  | SelfClosingStartTag.

(** The tag token under construction, with the attribute being read. *)
Record tag := {
  is_end : bool;
  tag_name : string;
  attributes : list (string * string);
  has_attribute : bool;
  attribute_name : string;
  attribute_value : string
}.

Definition new_tag (ending : bool) : tag :=
  {| is_end := ending; tag_name := EmptyString; attributes := [];
     has_attribute := false; attribute_name := EmptyString;
     attribute_value := EmptyString |}.

Definition no_tag : tag := new_tag false.

Definition is_char (c : ascii) (n : nat) : bool := Nat.eqb (nat_of_ascii c) n.

(** Tab, line feed, form feed, space. *)
Definition is_whitespace (c : ascii) : bool :=
  (is_char c 9 || is_char c 10 || is_char c 12 || is_char c 32)%bool.

Definition is_alpha (c : ascii) : bool :=
  let n := nat_of_ascii c in
  ((Nat.leb 65 n && Nat.leb n 90) || (Nat.leb 97 n && Nat.leb n 122))%bool.

Definition snoc (s : string) (c : ascii) : string := s +:+ String c EmptyString.

Definition has_name (name : string) (attrs : list (string * string)) : bool :=
  existsb (fun kv => String.eqb (fst kv) name) attrs.

(** The attribute being read joins the tag, unless the tag has one of
    that name already. *)
Definition commit (t : tag) : tag :=
  if has_attribute t then
    {| is_end := is_end t; tag_name := tag_name t;
       attributes :=
         if has_name (attribute_name t) (attributes t) then attributes t
         else attributes t ++ [(attribute_name t, attribute_value t)];
       has_attribute := false; attribute_name := EmptyString;
       attribute_value := EmptyString |}
  else t.

Definition start_attribute (name : string) (t : tag) : tag :=
  {| is_end := is_end t; tag_name := tag_name t; attributes := attributes (commit t);
     has_attribute := true; attribute_name := name; attribute_value := EmptyString |}.

Definition to_tag_name (c : ascii) (t : tag) : tag :=
  {| is_end := is_end t; tag_name := snoc (tag_name t) (Js.lower_ascii c);
     attributes := attributes t; has_attribute := has_attribute t;
     attribute_name := attribute_name t; attribute_value := attribute_value t |}.

Definition to_attribute_name (c : ascii) (t : tag) : tag :=
  {| is_end := is_end t; tag_name := tag_name t; attributes := attributes t;
     has_attribute := has_attribute t;
     attribute_name := snoc (attribute_name t) (Js.lower_ascii c);
     attribute_value := attribute_value t |}.

Definition with_attribute_value (v : string) (t : tag) : tag :=
  {| is_end := is_end t; tag_name := tag_name t; attributes := attributes t;
     has_attribute := has_attribute t; attribute_name := attribute_name t;
     attribute_value := v |}.

Definition to_attribute_value (c : ascii) (t : tag) : tag :=
  with_attribute_value (snoc (attribute_value t) c) t.

Definition emit (t : tag) : list token :=
  [if is_end t then TEnd (tag_name t)
   else TStart (tag_name t) (attributes (commit t))].

(** The outcome of one character: the next state, the tag being read and
    the tokens emitted. *)
Definition outcome : Type := option (state * tag * list token).

(** One step of each state on the current input character; a state that
    reconsumes the character in another state calls that state's step. *)
Definition in_attribute_name_other (t : tag) (c : ascii) : outcome :=
  if is_char c 0 then None
  else Some (AttributeName, to_attribute_name c t, []).

Definition in_after_attribute_name (t : tag) (c : ascii) : outcome :=
  if is_whitespace c then Some (AfterAttributeName, t, [])
  else if is_char c 47 then Some (SelfClosingStartTag, t, [])
  else if is_char c 61 then Some (BeforeAttributeValue, t, [])
  else if is_char c 62 then Some (Data, no_tag, emit t)
  else in_attribute_name_other (start_attribute EmptyString t) c.

Definition in_attribute_name (t : tag) (c : ascii) : outcome :=
  if (is_whitespace c || is_char c 47 || is_char c 62)%bool
  then in_after_attribute_name t c
  else if is_char c 61 then Some (BeforeAttributeValue, t, [])
  else in_attribute_name_other t c.

Definition in_before_attribute_name (t : tag) (c : ascii) : outcome :=
  if is_whitespace c then Some (BeforeAttributeName, t, [])
  else if (is_char c 47 || is_char c 62)%bool then in_after_attribute_name t c
  else if is_char c 61 then
    Some (AttributeName, start_attribute (String c EmptyString) t, [])
  else in_attribute_name (start_attribute EmptyString t) c.

Definition in_attribute_value_unquoted (t : tag) (c : ascii) : outcome :=
  if is_whitespace c then Some (BeforeAttributeName, t, [])
  else if is_char c 38 then None
  else if is_char c 62 then Some (Data, no_tag, emit t)
  else if is_char c 0 then None
  else Some (AttributeValueUnquoted, to_attribute_value c t, []).

Definition in_attribute_value_quoted (quote : nat) (here : state) (t : tag) (c : ascii)
    : outcome :=
  if is_char c quote then Some (AfterAttributeValueQuoted, t, [])
  else if is_char c 38 then None
  else if is_char c 0 then None
  else Some (here, to_attribute_value c t, []).

Definition in_before_attribute_value (t : tag) (c : ascii) : outcome :=
  if is_whitespace c then Some (BeforeAttributeValue, t, [])
  else if is_char c 34 then Some (AttributeValueDoubleQuoted, t, [])
  else if is_char c 39 then Some (AttributeValueSingleQuoted, t, [])
  else if is_char c 62 then Some (Data, no_tag, emit t)
  else in_attribute_value_unquoted t c.

Definition in_after_attribute_value_quoted (t : tag) (c : ascii) : outcome :=
  if is_whitespace c then Some (BeforeAttributeName, t, [])
  else if is_char c 47 then Some (SelfClosingStartTag, t, [])
  else if is_char c 62 then Some (Data, no_tag, emit t)
  else in_before_attribute_name t c.

Definition in_self_closing_start_tag (t : tag) (c : ascii) : outcome :=
  if is_char c 62 then Some (Data, no_tag, emit t)
  else in_before_attribute_name t c.

Definition in_tag_name (t : tag) (c : ascii) : outcome :=
  if is_whitespace c then Some (BeforeAttributeName, t, [])
  else if is_char c 47 then Some (SelfClosingStartTag, t, [])
  else if is_char c 62 then Some (Data, no_tag, emit t)
  else if is_char c 0 then None
  else Some (TagName, to_tag_name c t, []).

Definition in_data (c : ascii) : outcome :=
  if is_char c 60 then Some (TagOpen, no_tag, [])
  else if is_char c 38 then None
  else if is_char c 0 then None
  else Some (Data, no_tag, [TChar c]).

Definition in_tag_open (c : ascii) : outcome :=
  if is_char c 33 then None
  else if is_char c 47 then Some (EndTagOpen, no_tag, [])
  else if is_alpha c then in_tag_name (new_tag false) c
  else if is_char c 63 then None
  else
    match in_data c with
    | Some (s, t, out) => Some (s, t, TChar "<" :: out)
    | None => None
    end.

Definition in_end_tag_open (c : ascii) : outcome :=
  if is_alpha c then in_tag_name (new_tag true) c
  else if is_char c 62 then Some (Data, no_tag, [])
  else None.

Definition step (s : state) (t : tag) (c : ascii) : outcome :=
  if is_char c 13 then None
  else
    match s with
    | Data => in_data c
    | TagOpen => in_tag_open c
    | EndTagOpen => in_end_tag_open c
    | TagName => in_tag_name t c
    | BeforeAttributeName => in_before_attribute_name t c
    | AttributeName => in_attribute_name t c
    | AfterAttributeName => in_after_attribute_name t c
    | BeforeAttributeValue => in_before_attribute_value t c
    | AttributeValueDoubleQuoted =>
        in_attribute_value_quoted 34 AttributeValueDoubleQuoted t c
    | AttributeValueSingleQuoted =>
        in_attribute_value_quoted 39 AttributeValueSingleQuoted t c
    | AttributeValueUnquoted => in_attribute_value_unquoted t c
    | AfterAttributeValueQuoted => in_after_attribute_value_quoted t c
    | SelfClosingStartTag => in_self_closing_start_tag t c
    end.

(** The tokenizer over an input: where it ends and what it emitted. *)
Fixpoint scan (s : state) (t : tag) (input : string) : outcome :=
  match input with
  | EmptyString => Some (s, t, [])
  | String c rest =>
      match step s t c with
      | Some (s', t', out) =>
          match scan s' t' rest with
          | Some (s'', t'', more) => Some (s'', t'', out ++ more)
          | None => None
          end
      | None => None
      end
  end.

(** At the end of the input: characters read as the start of a tag that
    never came are text; an unfinished tag is dropped. *)
Definition at_end (s : state) : list token :=
  match s with
  | TagOpen => [TChar "<"]
  | EndTagOpen => [TChar "<"; TChar "/"]
  | _ => []
  end.

(** An open element: its tag (empty for the root that collects the
    fragment), its attributes, the children it has so far, latest first,
    and the run of text being appended to it. *)
Record frame := {
  open_tag : string;
  open_attrs : list (string * string);
  placed : list Dom.node;
  text_run : string
}.

Definition root_frame : frame :=
  {| open_tag := EmptyString; open_attrs := []; placed := []; text_run := EmptyString |}.

Definition open_element (name : string) (attrs : list (string * string)) : frame :=
  {| open_tag := name; open_attrs := attrs; placed := []; text_run := EmptyString |}.

(** The children once the run of text has become a text node. *)
Definition settled (f : frame) : list Dom.node :=
  match text_run f with
  | EmptyString => placed f
  | run => Dom.Text run :: placed f
  end.

Definition add_child (n : Dom.node) (f : frame) : frame :=
  {| open_tag := open_tag f; open_attrs := open_attrs f;
     placed := n :: settled f; text_run := EmptyString |}.

Definition add_text (s : string) (f : frame) : frame :=
  {| open_tag := open_tag f; open_attrs := open_attrs f;
     placed := placed f; text_run := text_run f +:+ s |}.

Definition element_of (f : frame) : Dom.node :=
  Dom.Elem (open_tag f) (open_attrs f) EmptyString (rev (settled f)).

(** Insert a character at the current node. *)
Definition insert_character (c : ascii) (stack : list frame) : list frame :=
  match stack with
  | [] => []
  | f :: below => add_text (String c EmptyString) f :: below
  end.

(** Pop elements until one whose tag satisfies [stop] has been popped, or
    only the root is left; [pending] is the element popped last. *)
Fixpoint pop_to (stop : string -> bool) (pending : option Dom.node) (stack : list frame)
    : list frame :=
  match stack with
  | [] => []
  | f :: below =>
      let f' := match pending with Some n => add_child n f | None => f end in
      match below with
      | [] => [f']
      | parent :: rest =>
          if stop (open_tag f') then add_child (element_of f') parent :: rest
          else pop_to stop (Some (element_of f')) below
      end
  end.

(** No [strong] is popped on the way to an element satisfying [stop]: a
    formatting element closed by another element's tag would be reopened
    later, which is outside the model. *)
Fixpoint pops_no_strong (stop : string -> bool) (stack : list frame) : bool :=
  match stack with
  | [] => true
  | f :: below =>
      if stop (open_tag f) then true
      else if String.eqb (open_tag f) "strong" then false
      else pops_no_strong stop below
  end.

Definition is_cell (name : string) : bool :=
  (String.eqb name "td" || String.eqb name "th")%bool.

Definition is_root (name : string) : bool := String.eqb name EmptyString.

(** Whether an element [name] is open with no cell in between ("has an
    element in scope"). *)
Fixpoint in_scope (name : string) (stack : list frame) : bool :=
  match stack with
  | [] => false
  | f :: below =>
      if String.eqb (open_tag f) name then true
      else if (is_cell (open_tag f) || is_root (open_tag f))%bool then false
      else in_scope name below
  end.

(** The special elements of the model. *)
Definition is_special (name : string) : bool :=
  (is_cell name || is_root name || String.eqb name "div" || String.eqb name "pre"
   || String.eqb name "button" || String.eqb name "li")%bool.

(** The start tag [li] closes an open [li] reached through elements that
    are not special, or are [div]. *)
Fixpoint li_to_close (stack : list frame) : bool :=
  match stack with
  | [] => false
  | f :: below =>
      if String.eqb (open_tag f) "li" then true
      else if (is_special (open_tag f) && negb (String.eqb (open_tag f) "div"))%bool
      then false
      else li_to_close below
  end.

(** An end tag of an ordinary element closes the nearest open element of
    that name, unless a special element is met first. *)
Fixpoint ordinary_open (name : string) (stack : list frame) : bool :=
  match stack with
  | [] => false
  | f :: below =>
      if String.eqb (open_tag f) name then true
      else if is_special (open_tag f) then false
      else ordinary_open name below
  end.

Definition is_open (name : string) (stack : list frame) : bool :=
  existsb (fun f => String.eqb (open_tag f) name) stack.

(** The element the fragment is parsed for: a table row, or an element
    with flow content (a list, a block, a cell, a span). *)
Inductive context :=
  | Row
  | Flow.

(** Whether the tree builder is in the "in body" insertion mode (directly
    or through "in cell"). *)
Definition in_body (ctx : context) (stack : list frame) : bool :=
  match stack, ctx with
  | [_], Row => false
  | _, _ => true
  end.

(** What tree construction holds between two tokens: the stack of open
    elements, current node first, and whether a line feed coming next is
    the one dropped after a [pre] start tag. *)
Definition builder : Type := list frame * bool.

Definition close_to (stop : string -> bool) (stack : list frame) : option (list frame) :=
  if pops_no_strong stop stack then Some (pop_to stop None stack) else None.

Definition insert_element (name : string) (attrs : list (string * string))
    (stack : list frame) : option builder :=
  Some (open_element name attrs :: stack, String.eqb name "pre").

Definition start_tag (ctx : context) (name : string) (attrs : list (string * string))
    (stack : list frame) : option builder :=
  if has_name "style" attrs then None
  else if is_cell name then
    match ctx with
    | Flow => None
    | Row =>
        if in_body ctx stack
        then stack' ← close_to is_cell stack; insert_element name attrs stack'
        else insert_element name attrs stack
    end
  else if negb (in_body ctx stack) then None
  else if String.eqb name "button" then
    if in_scope "button" stack
    then stack' ← close_to (String.eqb "button") stack; insert_element name attrs stack'
    else insert_element name attrs stack
  else if String.eqb name "li" then
    if li_to_close stack
    then stack' ← close_to (String.eqb "li") stack; insert_element name attrs stack'
    else insert_element name attrs stack
  else if (String.eqb name "div" || String.eqb name "pre" || String.eqb name "span"
           || String.eqb name "strong")%bool
  then insert_element name attrs stack
  else None.

Definition end_tag (ctx : context) (name : string) (stack : list frame) : option builder :=
  let ignored : option builder := Some (stack, false) in
  let closed (found : bool) : option builder :=
    if found then stack' ← close_to (String.eqb name) stack; Some (stack', false)
    else ignored in
  if is_cell name then
    match ctx with
    | Flow => None
    | Row => closed (in_body ctx stack && is_open name stack)%bool
    end
  else if (String.eqb name "div" || String.eqb name "pre" || String.eqb name "button"
           || String.eqb name "li")%bool
  then closed (in_scope name stack)
  else if String.eqb name "span" then closed (ordinary_open name stack)
  else if String.eqb name "strong" then
    match stack with
    | f :: _ :: _ =>
        if String.eqb (open_tag f) "strong" then closed true
        else if is_open "strong" stack then None
        else ignored
    | _ => ignored
    end
  else None.

(** Tree construction for one token. *)
Definition feed1 (ctx : context) (tok : token) (b : builder) : option builder :=
  match tok with
  | TChar c =>
      if (snd b && is_char c 10)%bool then Some (fst b, false)
      else Some (insert_character c (fst b), false)
  | TStart name attrs => start_tag ctx name attrs (fst b)
  | TEnd name => end_tag ctx name (fst b)
  end.

Fixpoint feed (ctx : context) (tokens : list token) (b : builder) : option builder :=
  match tokens with
  | [] => Some b
  | tok :: rest =>
      match feed1 ctx tok b with
      | Some b' => feed ctx rest b'
      | None => None
      end
  end.

(** The children of the fragment once the input has ended. *)
Definition close_all (stack : list frame) : list Dom.node :=
  match pop_to (fun _ => false) None stack with
  | [root] => rev (settled root)
  | _ => []
  end.

(** [element.innerHTML = markup], [element.insertAdjacentHTML('beforeend',
    markup)]: the nodes the element gets, when the markup lies within the
    modelled part of the parser. *)
Definition parse (ctx : context) (markup : string) : option (list Dom.node) :=
  match scan Data no_tag markup with
  | Some (s, _, out) =>
      match feed ctx (out ++ at_end s) ([root_frame], false) with
      | Some (stack, _) => Some (close_all stack)
      | None => None
      end
  | None => None
  end.

Definition chars (s : string) : list ascii := list_ascii_of_string s.

(** A string the data state passes on as it is. *)
Definition text_safe (s : string) : bool :=
  forallb (fun c => negb (is_char c 60 || is_char c 38 || is_char c 0 || is_char c 13))
          (chars s).

(** A string a double-quoted attribute value passes on as it is. *)
Definition attribute_safe (s : string) : bool :=
  forallb (fun c => negb (is_char c 34 || is_char c 38 || is_char c 0 || is_char c 13))
          (chars s).

Definition is_empty (s : string) : bool :=
  match s with
  | EmptyString => true
  | String _ _ => false
  end.

Definition starts_with_newline (s : string) : bool :=
  match s with
  | String c _ => is_char c 10
  | EmptyString => false
  end.

(** A string the content of a [pre] passes on as it is. *)
Definition pre_safe (s : string) : bool := (text_safe s && negb (starts_with_newline s))%bool.

End Html.

(** ** The report payload *)

(** [metadata]: descriptive scalars; an absent property is [VUndefined]. *)
Record Metadata := {
  framework : Js.value;
  files_scanned : Js.value;
  target_path : Js.value;
  integrity_hash : Js.value
}.

(** [stats]: the two counts, each the integer its Number stands for. *)
Record Stats := {
  pass : Z;
  fail : Z
}.

(** One finding.  [finding_status] is the string the code compares with
    ['PASS'] and ['FAIL']; [finding_evidence] is absent when [None]. *)
Record Finding := {
  finding_id : string;
  finding_type : string;
  finding_control : string;
  finding_status : string;
  finding_evidence : option Json.json
}.

(** The payload object; each of its three properties may be missing. *)
Record ScanReport := {
  metadata : option Metadata;
  stats : option Stats;
  findings : option (list Finding)
}.

(** What a caller may pass to [renderReport]. *)
Inductive input :=
  | Null
  | Undefined
  | Object (report : ScanReport).

(** ToBoolean of the argument. *)
Definition truthy (data : input) : bool :=
  match data with
  | Null | Undefined => false
  | Object _ => true
  end.

(** [data.metadata], [data.stats], [data.findings]: the property, or
    [None] for [undefined]. *)
Definition data_metadata (data : input) : option Metadata :=
  match data with Object r => metadata r | _ => None end.

Definition data_stats (data : input) : option Stats :=
  match data with Object r => stats r | _ => None end.

Definition data_findings (data : input) : option (list Finding) :=
  match data with Object r => findings r | _ => None end.

(** ** The recommendation catalog *)

(** The properties the catalog has of its own. *)
Definition RECOMMENDATIONS_MAP : gmap string string :=
  {[ "CC1.5" :=
       "Your latest commit is unsigned. To fix this: 1. gpg --full-generate-key 2. git config --global commit.gpgsign true 3. git commit --amend --no-edit -S" ]}.

(** The catalog is written as an object literal, so that it inherits from
    [Object.prototype].  These are the members browsers define there: all
    are functions, but [__proto__], which reads as the prototype itself. *)
Definition Object_prototype (name : string) : option Js.value :=
  if String.eqb name "constructor" then Some (Js.VFunction "Object")
  else if String.eqb name "__proto__" then Some Js.VObject
  else if existsb (String.eqb name)
            [ "hasOwnProperty"; "isPrototypeOf"; "propertyIsEnumerable";
              "toLocaleString"; "toString"; "valueOf";
              "__defineGetter__"; "__defineSetter__";
              "__lookupGetter__"; "__lookupSetter__" ]
  then Some (Js.VFunction name)
  else None.

(** [RECOMMENDATIONS_MAP[controlId]]: the catalog's own property, else
    the inherited one, else [undefined]. *)
Definition catalog_lookup (controlId : string) : Js.value :=
  match RECOMMENDATIONS_MAP !! controlId with
  | Some text => Js.VString text
  | None => default Js.VUndefined (Object_prototype controlId)
  end.

(** ** The page and the console *)

(** One call on the 2D drawing context (or an assignment to its
    [fillStyle]). *)
Inductive ctx_op :=
  | BeginPath
  | MoveTo (x y : R)
  | Arc (x y radius startAngle endAngle : R)
  | ClosePath
  | FillStyle (colour : string)
  | Fill.

(** The chart surface [resultsChart]: its size and what was drawn on it,
    oldest first. *)
Record Canvas := {
  width : Z;
  height : Z;
  drawn : list ctx_op
}.

(** The elements the hosting page provides, one component for each
    element the script addresses.  [fields] holds the [textContent] of the
    seven elements the script writes through [textContent], by element
    identifier; the elements it writes through [innerHTML] are the
    components of their own.  The chart surface is the one element the
    code allows to be absent. *)
Record Page := {
  fields : gmap string string;
  status_value : list Dom.node;
  findings_tbody : list Dom.node;
  resultsChart : option Canvas;
  recommendations_section_placeholder : string;
  recommendations_list : list Dom.node
}.

Record World := {
  document : Page;
  console : list string
}.

Definition with_fields (g : gmap string string -> gmap string string) (d : Page) : Page :=
  {| fields := g (fields d);
     status_value := status_value d;
     findings_tbody := findings_tbody d;
     resultsChart := resultsChart d;
     recommendations_section_placeholder := recommendations_section_placeholder d;
     recommendations_list := recommendations_list d |}.

Definition with_status_value (g : list Dom.node -> list Dom.node) (d : Page) : Page :=
  {| fields := fields d;
     status_value := g (status_value d);
     findings_tbody := findings_tbody d;
     resultsChart := resultsChart d;
     recommendations_section_placeholder := recommendations_section_placeholder d;
     recommendations_list := recommendations_list d |}.

Definition with_findings_tbody (g : list Dom.node -> list Dom.node) (d : Page) : Page :=
  {| fields := fields d;
     status_value := status_value d;
     findings_tbody := g (findings_tbody d);
     resultsChart := resultsChart d;
     recommendations_section_placeholder := recommendations_section_placeholder d;
     recommendations_list := recommendations_list d |}.

Definition with_resultsChart (g : option Canvas -> option Canvas) (d : Page) : Page :=
  {| fields := fields d;
     status_value := status_value d;
     findings_tbody := findings_tbody d;
     resultsChart := g (resultsChart d);
     recommendations_section_placeholder := recommendations_section_placeholder d;
     recommendations_list := recommendations_list d |}.

Definition with_placeholder_display (g : string -> string) (d : Page) : Page :=
  {| fields := fields d;
     status_value := status_value d;
     findings_tbody := findings_tbody d;
     resultsChart := resultsChart d;
     recommendations_section_placeholder := g (recommendations_section_placeholder d);
     recommendations_list := recommendations_list d |}.

Definition with_recommendations_list (g : list Dom.node -> list Dom.node) (d : Page) : Page :=
  {| fields := fields d;
     status_value := status_value d;
     findings_tbody := findings_tbody d;
     resultsChart := resultsChart d;
     recommendations_section_placeholder := recommendations_section_placeholder d;
     recommendations_list := g (recommendations_list d) |}.

Definition on_document (g : Page -> Page) (w : World) : World :=
  {| document := g (document w); console := console w |}.

(** ** Running a script *)

Inductive exn :=
  | TypeError.

Inductive completion (A : Type) :=
  | Normal (a : A)
  | Throw (e : exn).
Arguments Normal {A} a.
Arguments Throw {A} e.

(** A computation reads and changes the world and completes normally or
    abruptly; what it changed before throwing stays changed. *)
Definition JS (A : Type) : Type := World -> World * completion A.

#[export] Instance JS_ret : MRet JS := fun A a w => (w, Normal a).

#[export] Instance JS_bind : MBind JS := fun A B k c w =>
  match c w with
  | (w', Normal a) => k a w'
  | (w', Throw e) => (w', Throw e)
  end.

Definition throw {A} (e : exn) : JS A := fun w => (w, Throw e).

(** Apply a change to the page. *)
Definition mutate (g : Page -> Page) : JS unit :=
  fun w => (on_document g w, Normal tt).

(** Reading a property of [o] where [o] is a value that may be
    [undefined] or [null] ([None]): a TypeError in that case. *)
Definition deref {A} (o : option A) : JS A :=
  match o with
  | Some a => mret a
  | None => throw TypeError
  end.

(** [array.forEach(body)]. *)
Fixpoint forEach {A} (body : A -> JS unit) (l : list A) : JS unit :=
  match l with
  | [] => mret tt
  | x :: l' => body x;; forEach body l'
  end.

(** [console.error(msg)]. *)
Definition console_error (msg : string) : JS unit :=
  fun w => ({| document := document w; console := console w ++ [msg] |}, Normal tt).

(** ** Markup produced by the template literals *)

(** The value of a template literal that is handed to the HTML parser:
    [source] is the string, [nodes] the trees it is the markup of.  They
    are the trees the parser builds as long as the interpolated strings
    bring no markup of their own ([<], [&], and the double quote inside an
    attribute value); the tables and lists of this model are built from
    them. *)
Record fragment := {
  source : string;
  nodes : list Dom.node
}.

(** A string without markup. *)
Definition plain (s : string) : fragment :=
  {| source := s; nodes := [Dom.Text s] |}.

(** [a || b] on strings that are about to be parsed. *)
Definition fragment_or (a b : fragment) : fragment :=
  if Js.truthy (Js.VString (source a)) then a else b.

(** Line 22: the overall-status badge. *)
Definition status_badge (overallStatus : string) : fragment :=
  {| source :=
       "<span class=" +:+ Js.dq +:+ "status-" +:+ Js.toLowerCase overallStatus +:+ Js.dq
         +:+ ">" +:+ overallStatus +:+ "</span>";
     nodes :=
       [Dom.Elem "span" [("class", "status-" +:+ Js.toLowerCase overallStatus)] EmptyString
          [Dom.Text overallStatus]] |}.

(** Lines 43-46: the toggle control and the evidence block of a failed
    finding. *)
Definition evidence_controls (finding : Finding) : fragment :=
  let pretty_evidence := Js.ToString (Json.stringify (finding_evidence finding)) in
  {| source :=
       "<button class=" +:+ Js.dq +:+ "toggle-details" +:+ Js.dq
         +:+ " onclick=" +:+ Js.dq +:+ "toggleEvidence(this)" +:+ Js.dq
         +:+ ">Show Evidence</button>" +:+ Js.nl
         +:+ Js.spaces 21 +:+ "<div class=" +:+ Js.dq +:+ "evidence-details" +:+ Js.dq
         +:+ " id=" +:+ Js.dq +:+ "details-" +:+ finding_id finding +:+ Js.dq +:+ ">" +:+ Js.nl
         +:+ Js.spaces 24 +:+ "<pre>" +:+ pretty_evidence +:+ "</pre>" +:+ Js.nl
         +:+ Js.spaces 21 +:+ "</div>";
     nodes :=
       [Dom.Elem "button"
          [("class", "toggle-details"); ("onclick", "toggleEvidence(this)")] EmptyString
          [Dom.Text "Show Evidence"];
        Dom.Text (Js.nl +:+ Js.spaces 21);
        Dom.Elem "div"
          [("class", "evidence-details"); ("id", "details-" +:+ finding_id finding)] EmptyString
          [Dom.Text (Js.nl +:+ Js.spaces 24);
           Dom.Elem "pre" [] EmptyString [Dom.Text pretty_evidence];
           Dom.Text (Js.nl +:+ Js.spaces 21)]] |}.

(** Line 48. *)
Definition not_applicable : fragment :=
  {| source := "<span>N/A</span>";
     nodes := [Dom.Elem "span" [] EmptyString [Dom.Text "N/A"]] |}.

(** Lines 36-51: the cells of one table row. *)
Definition row_cells (finding : Finding) : fragment :=
  let statusClass :=
    if String.eqb (finding_status finding) "PASS" then "status-pass" else "status-fail" in
  let statusText := finding_status finding in
  let actions :=
    if String.eqb (finding_status finding) "FAIL"
    then evidence_controls finding else not_applicable in
  {| source :=
       Js.nl
         +:+ Js.spaces 12 +:+ "<td>" +:+ finding_id finding +:+ "</td>" +:+ Js.nl
         +:+ Js.spaces 12 +:+ "<td>" +:+ finding_type finding +:+ "</td>" +:+ Js.nl
         +:+ Js.spaces 12 +:+ "<td>" +:+ finding_control finding +:+ "</td>" +:+ Js.nl
         +:+ Js.spaces 12 +:+ "<td><span class=" +:+ Js.dq +:+ statusClass +:+ Js.dq +:+ ">"
         +:+ statusText +:+ "</span></td>" +:+ Js.nl
         +:+ Js.spaces 12 +:+ "<td>" +:+ Js.nl
         +:+ Js.spaces 16 +:+ source actions +:+ Js.nl
         +:+ Js.spaces 12 +:+ "</td>" +:+ Js.nl
         +:+ Js.spaces 8;
     nodes :=
       [Dom.Text (Js.nl +:+ Js.spaces 12);
        Dom.Elem "td" [] EmptyString [Dom.Text (finding_id finding)];
        Dom.Text (Js.nl +:+ Js.spaces 12);
        Dom.Elem "td" [] EmptyString [Dom.Text (finding_type finding)];
        Dom.Text (Js.nl +:+ Js.spaces 12);
        Dom.Elem "td" [] EmptyString [Dom.Text (finding_control finding)];
        Dom.Text (Js.nl +:+ Js.spaces 12);
        Dom.Elem "td" [] EmptyString
          [Dom.Elem "span" [("class", statusClass)] EmptyString [Dom.Text statusText]];
        Dom.Text (Js.nl +:+ Js.spaces 12);
        Dom.Elem "td" [] EmptyString
          (Dom.Text (Js.nl +:+ Js.spaces 16) :: nodes actions
             ++ [Dom.Text (Js.nl +:+ Js.spaces 12)]);
        Dom.Text (Js.nl +:+ Js.spaces 8)] |}.

(** Lines 75-77 and 82-84: one recommendation item. *)
Definition list_item (controlId text : string) : fragment :=
  {| source :=
       Js.nl +:+ Js.spaces 20 +:+ "<li><strong>" +:+ controlId +:+ ":</strong> " +:+ text
         +:+ "</li>" +:+ Js.nl +:+ Js.spaces 16;
     nodes :=
       [Dom.Text (Js.nl +:+ Js.spaces 20);
        Dom.Elem "li" [] EmptyString
          [Dom.Elem "strong" [] EmptyString [Dom.Text (controlId +:+ ":")];
           Dom.Text (" " +:+ text)];
        Dom.Text (Js.nl +:+ Js.spaces 16)] |}.

(** Line 81. *)
Definition fallbackText (controlId : string) : string :=
  "No specific recommendation found for control " +:+ controlId
    +:+ ". Please review the control objective and evidence.".

(** ** Operations on the page's elements *)

(** [document.getElementById(id).textContent = v] for a display field. *)
Definition set_field (id : string) (v : Js.value) : JS unit :=
  mutate (with_fields (insert id (Js.ToString v))).

(** [document.getElementById('status-value').innerHTML = f]. *)
Definition set_status_value (f : fragment) : JS unit :=
  mutate (with_status_value (fun _ => nodes f)).

(** [row = document.createElement('tr'); row.innerHTML = f]: a row with
    the trees of [f] for children. *)
Definition new_row (f : fragment) : Dom.node :=
  Dom.Elem "tr" [] EmptyString (nodes f).

(** [tbody.appendChild(row)]. *)
Definition tbody_appendChild (row : Dom.node) : JS unit :=
  mutate (with_findings_tbody (fun rows => rows ++ [row])).

(** [recommendationsList.innerHTML = f]. *)
Definition set_recommendations_list (f : fragment) : JS unit :=
  mutate (with_recommendations_list (fun _ => nodes f)).

(** [recommendationsList.insertAdjacentHTML('beforeend', f)]: the trees
    of [f] follow the children the list has. *)
Definition recommendations_insert_beforeend (f : fragment) : JS unit :=
  mutate (with_recommendations_list (fun items => items ++ nodes f)).

(** [recommendationsSectionPlaceholder.style.display = d]. *)
Definition set_placeholder_display (d : string) : JS unit :=
  mutate (with_placeholder_display (fun _ => d)).

(** [document.getElementById('resultsChart')]; [None] is [null]. *)
Definition get_resultsChart : JS (option Canvas) :=
  fun w => (w, Normal (resultsChart (document w))).

(** One operation on the context of the chart surface. *)
Definition ctx_do (op : ctx_op) : JS unit :=
  mutate (with_resultsChart
            (fmap (fun c => {| width := width c; height := height c;
                               drawn := drawn c ++ [op] |}))).

(** ** The three functions of the script *)

(** [drawSimpleChart(passCount, failCount)], lines 110-139. *)
Definition drawSimpleChart (passCount failCount : Z) : JS unit :=
  canvas ← get_resultsChart;
  match canvas with
  | None => mret tt
  | Some canvas =>
      let total := passCount + failCount in
      if total =? 0 then mret tt
      else
        let centerX := (IZR (width canvas) / 2)%R in
        let centerY := (IZR (height canvas) / 2)%R in
        let radius := (Rmin centerX centerY - 10)%R in
        let startAngle := 0%R in
        let passFraction := (IZR passCount / IZR total)%R in
        let failFraction := (IZR failCount / IZR total)%R in
        ctx_do BeginPath;;
        ctx_do (MoveTo centerX centerY);;
        ctx_do (Arc centerX centerY radius
                    startAngle (startAngle + PI * 2 * passFraction)%R);;
        ctx_do ClosePath;;
        ctx_do (FillStyle "#073b0f");;
        ctx_do Fill;;
        ctx_do BeginPath;;
        ctx_do (MoveTo centerX centerY);;
        ctx_do (Arc centerX centerY radius
                    (startAngle + PI * 2 * passFraction)%R
                    (startAngle + PI * 2 * (passFraction + failFraction))%R);;
        ctx_do ClosePath;;
        ctx_do (FillStyle "#8c1515");;
        ctx_do Fill
  end.

(** Lines 70-87: the item inserted for one failed finding. *)
Definition recommend (finding : Finding) : JS unit :=
  let controlId := finding_id finding in
  let recommendationText := catalog_lookup controlId in
  if Js.truthy recommendationText then
    recommendations_insert_beforeend (list_item controlId (Js.ToString recommendationText))
  else
    recommendations_insert_beforeend (list_item controlId (fallbackText controlId)).

Definition is_FAIL (finding : Finding) : bool := String.eqb (finding_status finding) "FAIL".

(** [renderReport(data)], lines 8-96. *)
Definition renderReport (data : input) : JS unit :=
  if negb (truthy data) then
    console_error "No data provided to renderReport."
  else
    md ← deref (data_metadata data);
    set_field "framework-value" (Js.or (framework md) (Js.VString "Loading..."));;
    st ← deref (data_stats data);
    set_field "pass-count" (Js.or (Js.VNumber (pass st)) (Js.VString "0"));;
    st ← deref (data_stats data);
    set_field "fail-count" (Js.or (Js.VNumber (fail st)) (Js.VString "0"));;
    st ← deref (data_stats data);
    set_field "total-count"
      (Js.or (Js.VNumber (Js.add (pass st) (fail st))) (Js.VString "0"));;
    st ← deref (data_stats data);
    let overallStatus := if 0 <? fail st then "FAIL" else "PASS" in
    set_status_value (fragment_or (status_badge overallStatus) (plain "Processing..."));;
    md ← deref (data_metadata data);
    set_field "files-count" (Js.or (files_scanned md) (Js.VString "0"));;
    md ← deref (data_metadata data);
    set_field "path-value" (Js.or (target_path md) (Js.VString "Unknown"));;
    md ← deref (data_metadata data);
    set_field "integrity-hash" (Js.or (integrity_hash md) (Js.VString "N/A"));;
    fs ← deref (data_findings data);
    forEach (fun finding => tbody_appendChild (new_row (row_cells finding))) fs;;
    st ← deref (data_stats data);
    drawSimpleChart (pass st) (fail st);;
    fs ← deref (data_findings data);
    let failedFindings := List.filter is_FAIL fs in
    if (0 <? length failedFindings)%nat then
      set_recommendations_list {| source := EmptyString; nodes := [] |};;
      forEach recommend failedFindings;;
      set_placeholder_display "block"
    else
      set_placeholder_display "none".

(** [toggleEvidence(button)], lines 98-108.  [button] is the position of
    the clicked element in the findings table, where all elements with a
    [details-] identifier live. *)
Definition toggleEvidence (button : Dom.path) : JS unit :=
  fun w =>
    let rows := findings_tbody (document w) in
    (sibling ← deref (Dom.nextElementSibling rows button ≫= Dom.node_at rows);
     let detailsId := Dom.id_of sibling in
     detailsDiv ← deref (Dom.getElementById detailsId rows);
     shown ← deref (Dom.style_display <$> Dom.node_at rows detailsDiv);
     if (String.eqb shown "none" || String.eqb shown EmptyString)%bool then
       mutate (with_findings_tbody (Dom.modify_at (Dom.set_display "block") detailsDiv));;
       mutate (with_findings_tbody (Dom.modify_at (Dom.set_textContent "Hide Evidence") button))
     else
       mutate (with_findings_tbody (Dom.modify_at (Dom.set_display "none") detailsDiv));;
       mutate (with_findings_tbody (Dom.modify_at (Dom.set_textContent "Show Evidence") button))) w.

(** ** What the script binds on [window], lines 141-143 *)

Inductive function :=
  | fn_renderReport
  | fn_toggleEvidence
  | fn_drawSimpleChart.

Definition window : gmap string function :=
  <["drawSimpleChart" := fn_drawSimpleChart]>
    (<["toggleEvidence" := fn_toggleEvidence]>
       (<["renderReport" := fn_renderReport]> ∅)).

(** ** Vocabulary of the statements *)

(** A payload with all three properties present. *)
Definition payload (md : Metadata) (st : Stats) (fs : list Finding) : input :=
  Object {| metadata := Some md; stats := Some st; findings := Some fs |}.

(** The rows the table builder creates for a sequence of findings. *)
Definition table_rows (fs : list Finding) : list Dom.node :=
  (fun finding => new_row (row_cells finding)) <$> fs.

(** The fragment [recommend] inserts for a finding. *)
Definition recommendation_item (finding : Finding) : fragment :=
  let controlId := finding_id finding in
  if Js.truthy (catalog_lookup controlId)
  then list_item controlId (Js.ToString (catalog_lookup controlId))
  else list_item controlId (fallbackText controlId).

Definition recommendation_items (failed : list Finding) : list Dom.node :=
  flat_map (fun finding => nodes (recommendation_item finding)) failed.

(** The operations one run of the chart drawer issues on a surface. *)
Definition chart_ops (c : Canvas) (passCount failCount : Z) : list ctx_op :=
  let total := passCount + failCount in
  let centerX := (IZR (width c) / 2)%R in
  let centerY := (IZR (height c) / 2)%R in
  let radius := (Rmin centerX centerY - 10)%R in
  let passFraction := (IZR passCount / IZR total)%R in
  let failFraction := (IZR failCount / IZR total)%R in
  [ BeginPath; MoveTo centerX centerY;
    Arc centerX centerY radius 0%R (0 + PI * 2 * passFraction)%R;
    ClosePath; FillStyle "#073b0f"; Fill;
    BeginPath; MoveTo centerX centerY;
    Arc centerX centerY radius (0 + PI * 2 * passFraction)%R
        (0 + PI * 2 * (passFraction + failFraction))%R;
    ClosePath; FillStyle "#8c1515"; Fill ].

(** The chart surface after one run of the chart drawer. *)
Definition paint (passCount failCount : Z) (surface : option Canvas) : option Canvas :=
  match surface with
  | None => None
  | Some c =>
      if passCount + failCount =? 0 then Some c
      else Some {| width := width c; height := height c;
                   drawn := drawn c ++ chart_ops c passCount failCount |}
  end.

(** The world after [renderReport] ran to its end on a full payload. *)
Definition rendered (md : Metadata) (st : Stats) (fs : list Finding) (w : World) : World :=
  let d := document w in
  let failed := List.filter is_FAIL fs in
  {| document :=
       {| fields :=
            <["integrity-hash" := Js.ToString (Js.or (integrity_hash md) (Js.VString "N/A"))]>
            (<["path-value" := Js.ToString (Js.or (target_path md) (Js.VString "Unknown"))]>
            (<["files-count" := Js.ToString (Js.or (files_scanned md) (Js.VString "0"))]>
            (<["total-count" :=
                 Js.ToString (Js.or (Js.VNumber (Js.add (pass st) (fail st)))
                                    (Js.VString "0"))]>
            (<["fail-count" := Js.ToString (Js.or (Js.VNumber (fail st)) (Js.VString "0"))]>
            (<["pass-count" := Js.ToString (Js.or (Js.VNumber (pass st)) (Js.VString "0"))]>
            (<["framework-value" :=
                 Js.ToString (Js.or (framework md) (Js.VString "Loading..."))]>
               (fields d)))))));
          status_value :=
            nodes (fragment_or (status_badge (if 0 <? fail st then "FAIL" else "PASS"))
                               (plain "Processing..."));
          findings_tbody := findings_tbody d ++ table_rows fs;
          resultsChart := paint (pass st) (fail st) (resultsChart d);
          recommendations_section_placeholder :=
            if (0 <? length failed)%nat then "block" else "none";
          recommendations_list :=
            if (0 <? length failed)%nat then recommendation_items failed
            else recommendations_list d |};
     console := console w |}.

(** The world a computation leaves, and how it completed. *)
Definition world_after {A} (c : JS A) (w : World) : World := fst (c w).
Definition completion_of {A} (c : JS A) (w : World) : completion A := snd (c w).

(** [n] clicks on the same toggle. *)
Fixpoint clicks (n : nat) (button : Dom.path) : JS unit :=
  match n with
  | O => mret tt
  | S n' => toggleEvidence button;; clicks n' button
  end.

(** In a row built by [row_cells] the actions cell is child 9 of the row;
    for a failed finding the toggle is child 1 and the evidence block
    child 3 of that cell. *)
Definition toggle_of_row (i : nat) : Dom.path := [i; 9; 1]%nat.
Definition evidence_of_row (i : nat) : Dom.path := [i; 9; 3]%nat.

(** A node and everything below it, in document order. *)
Fixpoint descendants (n : Dom.node) : list Dom.node :=
  n :: match n with
       | Dom.Text _ => []
       | Dom.Elem _ _ _ kids =>
           (fix all (ks : list Dom.node) : list Dom.node :=
              match ks with
              | [] => []
              | k :: ks' => descendants k ++ all ks'
              end) kids
       end.

(** The row of a failed finding whose evidence block has inline display
    [d] and whose toggle reads [label]. *)
Definition row_in_state (finding : Finding) (d label : string) : Dom.node :=
  match new_row (row_cells finding) with
  | Dom.Elem tag attrs dd kids =>
      Dom.Elem tag attrs dd
        (Dom.modify_at (Dom.set_textContent label) [9; 1]%nat
           (Dom.modify_at (Dom.set_display d) [9; 3]%nat kids))
  | n => n
  end.

(** The elements among a list of nodes. *)
Definition elements (l : list Dom.node) : list Dom.node := List.filter Dom.is_element l.

(** The item of the recommendations list for [controlId] with guidance
    [text]. *)
Definition recommendation_li (controlId text : string) : Dom.node :=
  Dom.Elem "li" [] EmptyString
    [Dom.Elem "strong" [] EmptyString [Dom.Text (controlId +:+ ":")];
     Dom.Text (" " +:+ text)].

(** A page on which nothing has been rendered yet, without and with a
    chart surface, and the world around it. *)
Definition blank_page (surface : option Canvas) : Page :=
  {| fields := ∅;
     status_value := [];
     findings_tbody := [];
     resultsChart := surface;
     recommendations_section_placeholder := EmptyString;
     recommendations_list := [] |}.

Definition blank_world (surface : option Canvas) : World :=
  {| document := blank_page surface; console := [] |}.

(** The payload of the first scenario of the test plan. *)
Definition scenario_metadata : Metadata :=
  {| framework := Js.VString "SOC2";
     files_scanned := Js.VNumber 12;
     target_path := Js.VString "/app";
     integrity_hash := Js.VString "abc123" |}.

Definition scenario_stats : Stats := {| pass := 2; fail := 1 |}.

Definition finding_CC15 : Finding :=
  {| finding_id := "CC1.5";
     finding_type := "process";
     finding_control := "Commit signing";
     finding_status := "FAIL";
     finding_evidence := Some (Json.JObject [("file", Json.JString "a.go")]) |}.

Definition finding_CC61 : Finding :=
  {| finding_id := "CC6.1";
     finding_type := "code";
     finding_control := "Auth required";
     finding_status := "PASS";
     finding_evidence := None |}.

Definition scenario_findings : list Finding := [finding_CC15; finding_CC61].

(** Inline display of an evidence block, and what its toggle reads, [n]
    clicks after the row was rendered. *)
Definition display_after (n : nat) : string :=
  match n with
  | O => EmptyString
  | S _ => if Nat.odd n then "block" else "none"
  end.

Definition label_after (n : nat) : string :=
  if Nat.odd n then "Hide Evidence" else "Show Evidence".

(** A payload with [metadata] and [stats] but without [findings]. *)
Definition payload_without_findings (md : Metadata) (st : Stats) : input :=
  Object {| metadata := Some md; stats := Some st; findings := None |}.

(** Whether the strings of a finding reach its row as they are: none
    of those interpolated as text has a [<] or [&], and for a FAIL
    finding the identifier has no double quote either and the evidence,
    pretty-printed, has no [<] or [&]. *)
Definition plain_finding (finding : Finding) : bool :=
  (Html.text_safe (finding_id finding)
   && Html.text_safe (finding_type finding)
   && Html.text_safe (finding_control finding)
   && Html.text_safe (finding_status finding)
   && (negb (is_FAIL finding)
       || (Html.attribute_safe (finding_id finding)
           && Html.pre_safe (Js.ToString (Json.stringify (finding_evidence finding))))))%bool.

(** The children of the row are what the parser builds from the markup
    of the finding's template literal. *)
Definition row_as_parsed (finding : Finding) (row : Dom.node) : Prop :=
  Html.parse Html.Row (source (row_cells finding))
  = Some (Dom.tidy_nodes (Dom.childNodes row)).



(** An evidence object with a nested array, and how
    [JSON.stringify(evidence, null, 2)] prints it. *)
Definition nested_evidence : Json.json :=
  Json.JObject [ ("file", Json.JString "a.go");
                 ("lines", Json.JArray [Json.JNumber 3; Json.JNumber 14]);
                 ("signed", Json.JBool false) ].

Definition nested_evidence_text : string :=
  "{" +:+ Js.nl
    +:+ "  " +:+ Js.dq +:+ "file" +:+ Js.dq +:+ ": " +:+ Js.dq +:+ "a.go" +:+ Js.dq
    +:+ "," +:+ Js.nl
    +:+ "  " +:+ Js.dq +:+ "lines" +:+ Js.dq +:+ ": [" +:+ Js.nl
    +:+ "    3," +:+ Js.nl
    +:+ "    14" +:+ Js.nl
    +:+ "  ]," +:+ Js.nl
    +:+ "  " +:+ Js.dq +:+ "signed" +:+ Js.dq +:+ ": false" +:+ Js.nl
    +:+ "}".

(** What a row of the table shows: the finding it was built from and, for
    the row of a failed finding, the inline display of its evidence block
    and what its toggle reads. *)
Record row_state := {
  state_finding : Finding;
  state_display : string;
  state_label : string
}.

(** A row as [renderReport] leaves it. *)
Definition as_rendered (finding : Finding) : row_state :=
  {| state_finding := finding;
     state_display := EmptyString;
     state_label := "Show Evidence" |}.

Definition with_display (d : string) (s : row_state) : row_state :=
  {| state_finding := state_finding s;
     state_display := d;
     state_label := state_label s |}.

Definition with_label (label : string) (s : row_state) : row_state :=
  {| state_finding := state_finding s;
     state_display := state_display s;
     state_label := label |}.

(** The row that shows [s], and the table that shows a list of states. *)
Definition row_of_state (s : row_state) : Dom.node :=
  if is_FAIL (state_finding s)
  then row_in_state (state_finding s) (state_display s) (state_label s)
  else new_row (row_cells (state_finding s)).

Definition table_in_state (ss : list row_state) : list Dom.node :=
  row_of_state <$> ss.

(** Whether the row of [s] holds the evidence block with identifier [i]. *)
Definition owns_block (i : string) (s : row_state) : bool :=
  (is_FAIL (state_finding s)
   && String.eqb ("details-" +:+ finding_id (state_finding s)) i)%bool.

(** Index of the first row that holds the block [i], among rows whose
    first has index [k]. *)
Fixpoint first_owner (i : string) (ss : list row_state) (k : nat) : option nat :=
  match ss with
  | [] => None
  | s :: ss' => if owns_block i s then Some k else first_owner i ss' (S k)
  end.

(** The test of line 101. *)
Definition is_collapsed (d : string) : bool :=
  (String.eqb d "none" || String.eqb d EmptyString)%bool.

(** ** Running the monad *)

Lemma run_bind {A B} (c : JS A) (k : A -> JS B) (w : World) :
  (c ≫= k) w =
  match c w with
  | (w', Normal a) => k a w'
  | (w', Throw e) => (w', Throw e)
  end.
Proof. reflexivity. Qed.

Lemma on_document_id (w : World) : on_document (fun d => d) w = w.
Proof. by destruct w. Qed.

Ltac page_simpl :=
  cbn [document console fields status_value findings_tbody resultsChart
       recommendations_section_placeholder recommendations_list
       on_document with_fields with_status_value with_findings_tbody
       with_resultsChart with_placeholder_display with_recommendations_list
       fst snd].

Ltac step :=
  rewrite run_bind;
  cbv beta iota delta [deref set_field set_status_value set_recommendations_list
                       set_placeholder_display mutate mret JS_ret throw];
  page_simpl.

Lemma forEach_app {A} (body : A -> JS unit) (l1 l2 : list A) (w : World) :
  forEach body (l1 ++ l2) w =
  match forEach body l1 w with
  | (w', Normal _) => forEach body l2 w'
  | (w', Throw e) => (w', Throw e)
  end.
Proof.
  revert w. induction l1 as [|x l1 IH]; intros w; simpl.
  - reflexivity.
  - rewrite !run_bind. destruct (body x w) as [w' [[]|e]]; [apply IH | reflexivity].
Qed.

(** The loop of lines 30-53 appends the rows of the findings, in order,
    and cannot throw. *)
Lemma forEach_rows (fs : list Finding) (w : World) :
  forEach (fun finding => tbody_appendChild (new_row (row_cells finding))) fs w =
  (on_document (with_findings_tbody (fun rows => rows ++ table_rows fs)) w, Normal tt).
Proof.
  revert w. induction fs as [|f fs IH]; intros [[] ?]; simpl.
  - unfold on_document, with_findings_tbody; simpl. by rewrite app_nil_r.
  - rewrite run_bind. unfold tbody_appendChild at 1, mutate at 1. rewrite IH.
    unfold on_document, with_findings_tbody; simpl. by rewrite <- app_assoc.
Qed.

Lemma recommend_inserts (finding : Finding) :
  recommend finding = recommendations_insert_beforeend (recommendation_item finding).
Proof.
  unfold recommend, recommendation_item. by destruct (Js.truthy _).
Qed.

(** The loop of lines 70-87 appends one item per failed finding. *)
Lemma forEach_recommend (failed : list Finding) (w : World) :
  forEach recommend failed w =
  (on_document
     (with_recommendations_list (fun items => items ++ recommendation_items failed)) w,
   Normal tt).
Proof.
  revert w. induction failed as [|f failed IH]; intros [[] ?]; simpl.
  - unfold on_document, with_recommendations_list; simpl. by rewrite app_nil_r.
  - rewrite run_bind, recommend_inserts.
    unfold recommendations_insert_beforeend at 1, mutate at 1. rewrite IH.
    unfold on_document, with_recommendations_list; simpl. by rewrite <- app_assoc.
Qed.

(** The chart drawer changes nothing but the chart surface and never
    throws. *)
Lemma drawSimpleChart_paints (passCount failCount : Z) (w : World) :
  drawSimpleChart passCount failCount w =
  (on_document (with_resultsChart (paint passCount failCount)) w, Normal tt).
Proof.
  destruct w as [[fl sv tb [c|] pd rl] co]; [|reflexivity].
  unfold drawSimpleChart. rewrite run_bind.
  unfold get_resultsChart, on_document, with_resultsChart, paint.
  cbn [document resultsChart fst snd].
  destruct (passCount + failCount =? 0) eqn:E; [reflexivity|].
  destruct c as [wd ht dr]. unfold chart_ops.
  cbn [width height drawn].
  repeat (rewrite run_bind; unfold ctx_do at 1, mutate at 1, on_document at 1,
            with_resultsChart at 1; cbn [document resultsChart console fmap option_fmap option_map width height drawn fields status_value findings_tbody recommendations_section_placeholder recommendations_list]).
  unfold ctx_do, mutate, on_document, with_resultsChart.
  cbn [document resultsChart console fmap option_fmap option_map width height drawn fields status_value findings_tbody recommendations_section_placeholder recommendations_list].
  rewrite <- !app_assoc. reflexivity.
Qed.

(** On a full payload [renderReport] completes normally, and [rendered]
    is all it changes. *)
Lemma renderReport_payload (md : Metadata) (st : Stats) (fs : list Finding) (w : World) :
  renderReport (payload md st fs) w = (rendered md st fs w, Normal tt).
Proof.
  destruct w as [[fl sv tb ch pd rl] co].
  unfold renderReport, payload.
  cbn [truthy negb data_metadata data_stats data_findings metadata stats findings].
  do 18 step.
  rewrite forEach_rows. page_simpl.
  do 2 step. rewrite drawSimpleChart_paints. page_simpl.
  step. unfold rendered. page_simpl.
  destruct (0 <? length (List.filter is_FAIL fs))%nat eqn:E.
  - do 2 step. rewrite forEach_recommend. page_simpl. reflexivity.
  - reflexivity.
Qed.

(** ** Missing input *)

(** C6: called with [null] or [undefined], [renderReport] logs a
    diagnostic on the console, leaves every element of the page as it was
    and completes normally (it does not throw). *)
Theorem renderReport_missing_input (w : World) :
  renderReport Null w =
    ({| document := document w;
        console := console w ++ ["No data provided to renderReport."] |}, Normal tt)
  /\ renderReport Undefined w =
    ({| document := document w;
        console := console w ++ ["No data provided to renderReport."] |}, Normal tt).
Proof. split; reflexivity. Qed.

(** C10: the guard covers [null] and [undefined] only.  A truthy payload
    without [stats] (but with [metadata]) makes [renderReport] throw a
    TypeError after [metadata.framework] has been written to
    [framework-value], and nothing else; a truthy payload without
    [metadata] makes it throw before anything is written. *)
Theorem renderReport_missing_property :
  (forall (md : Metadata) (fs : option (list Finding)) (w : World),
      let data := Object {| metadata := Some md; stats := None; findings := fs |} in
      truthy data = true
      /\ renderReport data w =
           (on_document
              (with_fields
                 (insert "framework-value"
                    (Js.ToString (Js.or (framework md) (Js.VString "Loading..."))))) w,
            Throw TypeError))
  /\ (forall (st : option Stats) (fs : option (list Finding)) (w : World),
      let data := Object {| metadata := None; stats := st; findings := fs |} in
      truthy data = true
      /\ renderReport data w = (w, Throw TypeError)).
Proof.
  split; intros; split; reflexivity.
Qed.

(** ** Summary fields *)

Lemma world_after_payload (md : Metadata) (st : Stats) (fs : list Finding) (w : World) :
  world_after (renderReport (payload md st fs)) w = rendered md st fs w.
Proof. unfold world_after. by rewrite renderReport_payload. Qed.

(** Integers below 2^53 in magnitude are doubles, and print as their
    decimal numeral. *)
Lemma round_to_double_safe (z : Z) : Z.abs z < 2 ^ 53 -> Js.round_to_double z = z.
Proof.
  intros H. unfold Js.round_to_double. cbv zeta.
  destruct (Z.abs z <? 2 ^ 53) eqn:E; [reflexivity|].
  apply Z.ltb_ge in E. lia.
Qed.

Lemma number_text_safe (n : Z) : Z.abs n < 2 ^ 53 -> Js.number_text n = pretty n.
Proof.
  intros H. unfold Js.number_text. cbv zeta. rewrite (round_to_double_safe n H).
  destruct (Z.abs n <? 2 ^ 53) eqn:E; [reflexivity|].
  apply Z.ltb_ge in E. lia.
Qed.

Lemma add_safe (a b : Z) :
  Z.abs a < 2 ^ 53 -> Z.abs b < 2 ^ 53 -> Z.abs (a + b) < 2 ^ 53 -> Js.add a b = a + b.
Proof.
  intros Ha Hb Hab. unfold Js.add.
  by rewrite (round_to_double_safe a Ha), (round_to_double_safe b Hb),
     (round_to_double_safe (a + b) Hab).
Qed.

(** [n || '0'] prints as [n]: zero and its placeholder read the same. *)
Lemma or_number_text (n : Z) :
  Js.ToString (Js.or (Js.VNumber n) (Js.VString "0")) = Js.number_text n.
Proof.
  unfold Js.or, Js.truthy. destruct (n =? 0) eqn:E; [|reflexivity].
  apply Z.eqb_eq in E. by subst n.
Qed.

(** C5, as stated, fails: the counts 2^53 and 1 are integers >= 0, and
    the [total-count] field shows 9007199254740992, which is not their sum
    9007199254740993: the sum of two Numbers is rounded to a double. *)
Lemma total_count_is_sum_refuted :
  let st := {| pass := 2 ^ 53; fail := 1 |} in
  let shown :=
    fields (document (world_after (renderReport (payload scenario_metadata st []))
                                  (blank_world None))) !! "total-count" in
  0 <= pass st /\ 0 <= fail st
  /\ shown = Some "9007199254740992"
  /\ pretty (pass st + fail st) = "9007199254740993"
  /\ shown <> Some (pretty (pass st + fail st)).
Proof.
  intros st shown.
  assert (Hshown : shown = Some "9007199254740992").
  { unfold shown. rewrite world_after_payload. unfold rendered. page_simpl.
    rewrite !lookup_insert_ne by done. rewrite lookup_insert_eq.
    reflexivity. }
  assert (Hsum : pretty (pass st + fail st) = "9007199254740993")
    by (vm_compute; reflexivity).
  split; [by vm_compute|]. split; [by vm_compute|].
  split; [exact Hshown|]. split; [exact Hsum|].
  rewrite Hshown, Hsum. discriminate.
Qed.

(** C5, amended: for a payload whose counts are integers >= 0 with a sum
    below 2^53, the [total-count] field shows the decimal numeral of
    [stats.pass + stats.fail]; when both counts are 0 that is the string
    "0". *)
Theorem total_count_is_sum (md : Metadata) (st : Stats) (fs : list Finding) (w : World) :
  0 <= pass st -> 0 <= fail st -> pass st + fail st < 2 ^ 53 ->
  let w' := world_after (renderReport (payload md st fs)) w in
  fields (document w') !! "total-count" = Some (pretty (pass st + fail st))
  /\ (pass st = 0 -> fail st = 0 -> fields (document w') !! "total-count" = Some "0").
Proof.
  intros Hp Hf Hsum w'.
  assert (H : fields (document w') !! "total-count" = Some (pretty (pass st + fail st))).
  { unfold w'. rewrite world_after_payload. unfold rendered. page_simpl.
    rewrite !lookup_insert_ne by done. rewrite lookup_insert_eq.
    rewrite or_number_text, add_safe by lia.
    by rewrite number_text_safe by lia. }
  split; [exact H|]. intros Hp0 Hf0. rewrite H, Hp0, Hf0. reflexivity.
Qed.

(** C5 on the scenario: 2 passed and 1 failed show as 3. *)
Lemma total_count_is_sum_witness :
  fields (document (world_after
            (renderReport (payload scenario_metadata scenario_stats scenario_findings))
            (blank_world None))) !! "total-count" = Some "3".
Proof.
  refine (proj1 (total_count_is_sum scenario_metadata scenario_stats scenario_findings
                   (blank_world None) _ _ _)); simpl; lia.
Defined.

(** C4: the overall-status badge is one [span]; it reads FAIL exactly when
    [stats.fail > 0] and PASS exactly when not, and its class is the
    lowercase status after [status-]: [status-fail] when it reads FAIL,
    [status-pass] when it reads PASS. *)
Theorem status_badge_reads (md : Metadata) (st : Stats) (fs : list Finding) (w : World) :
  let w' := world_after (renderReport (payload md st fs)) w in
  exists badge,
    status_value (document w') = [badge]
    /\ Dom.tagName badge = "span"
    /\ (Dom.textContent badge = "FAIL" <-> 0 < fail st)
    /\ (Dom.textContent badge = "PASS" <-> ~ 0 < fail st)
    /\ (Dom.textContent badge = "FAIL" -> Dom.className badge = "status-fail")
    /\ (Dom.textContent badge = "PASS" -> Dom.className badge = "status-pass")
    /\ (Dom.className badge = "status-fail" \/ Dom.className badge = "status-pass").
Proof.
  intros w'. unfold w'. rewrite world_after_payload. unfold rendered. page_simpl.
  destruct (0 <? fail st) eqn:E.
  - apply Z.ltb_lt in E. eexists. split; [reflexivity|].
    repeat split; try done. by left.
  - apply Z.ltb_ge in E. eexists. split; [reflexivity|].
    repeat split; try done; try lia. by right.
Qed.

(** ** Entry points *)

Lemma window_has_no_drawChart : window !! "drawChart" = None.
Proof. reflexivity. Qed.

(** C3, as stated, fails: the globals are not renderReport,
    toggleEvidence and drawChart, and no global drawChart is bound to the
    chart drawer. *)
Lemma entry_points_drawChart_refuted :
  ~ (dom window = ({[ "renderReport"; "toggleEvidence"; "drawChart" ]} : gset string)
     /\ window !! "drawChart" = Some fn_drawSimpleChart).
Proof. intros [_ H]. by rewrite window_has_no_drawChart in H. Qed.

(** C3, amended: the script binds exactly renderReport, toggleEvidence and
    drawSimpleChart on [window], each to the function of that name; there
    is no global drawChart. *)
Theorem entry_points :
  dom window = ({[ "renderReport"; "toggleEvidence"; "drawSimpleChart" ]} : gset string)
  /\ window !! "renderReport" = Some fn_renderReport
  /\ window !! "toggleEvidence" = Some fn_toggleEvidence
  /\ window !! "drawSimpleChart" = Some fn_drawSimpleChart
  /\ window !! "drawChart" = None.
Proof.
  split; [|repeat split; reflexivity].
  unfold window. rewrite !dom_insert_L, dom_empty_L. set_solver.
Qed.

(** ** Repeated rendering *)

(** Two renderings in a row leave the rows of both payloads in the table:
    nothing in [renderReport] empties [findings-tbody]. *)
Lemma renderReport_twice_rows (md1 md2 : Metadata) (st1 st2 : Stats)
    (fs1 fs2 : list Finding) (w : World) :
  let w2 := world_after (renderReport (payload md1 st1 fs1);;
                         renderReport (payload md2 st2 fs2)) w in
  findings_tbody (document w2)
  = findings_tbody (document w) ++ table_rows fs1 ++ table_rows fs2.
Proof.
  intros w2. unfold w2, world_after. rewrite run_bind, !renderReport_payload.
  unfold rendered. page_simpl. by rewrite <- app_assoc.
Qed.

(** The recommendations list is emptied only on the branch that refills
    it: a payload without failed findings leaves the earlier items in
    place (in a hidden panel). *)
Lemma renderReport_keeps_stale_recommendations (md : Metadata) (st : Stats)
    (fs : list Finding) (w : World) :
  List.filter is_FAIL fs = [] ->
  recommendations_list (document (world_after (renderReport (payload md st fs)) w))
  = recommendations_list (document w).
Proof.
  intros H. rewrite world_after_payload. unfold rendered. page_simpl. by rewrite H.
Qed.

(** C1 (the code departs from it): rendering the scenario payload and then
    a payload without findings on a blank page leaves the two rows and the
    recommendation of the first payload in place; the rows of the second
    payload alone would be none. *)
Theorem second_render_keeps_first_rows :
  let second := payload scenario_metadata {| pass := 0; fail := 0 |} [] in
  let w2 := world_after
              (renderReport (payload scenario_metadata scenario_stats scenario_findings);;
               renderReport second) (blank_world None) in
  findings_tbody (document w2) = table_rows scenario_findings
  /\ length (findings_tbody (document w2)) = 2%nat
  /\ findings_tbody (document (world_after (renderReport second) (blank_world None))) = []
  /\ length (elements (recommendations_list (document w2))) = 1%nat.
Proof. repeat split. Qed.

(** ** The parser on the templates *)

Lemma append_empty_r (s : string) : s +:+ EmptyString = s.
Proof.
  induction s as [|c s IH]; [reflexivity|].
  change (String c (s +:+ EmptyString) = String c s). by rewrite IH.
Qed.

Lemma append_assoc (a b c : string) : (a +:+ b) +:+ c = a +:+ (b +:+ c).
Proof.
  induction a as [|x a IH]; [reflexivity|].
  change (String x ((a +:+ b) +:+ c) = String x (a +:+ (b +:+ c))). by rewrite IH.
Qed.

Lemma snoc_append (v : string) (c : ascii) (s : string) :
  Html.snoc v c +:+ s = v +:+ String c s.
Proof. unfold Html.snoc. by rewrite append_assoc. Qed.

Lemma scan_app (s : Html.state) (t : Html.tag) (a b : string) :
  Html.scan s t (a +:+ b) =
  match Html.scan s t a with
  | Some (s1, t1, o1) =>
      match Html.scan s1 t1 b with
      | Some (s2, t2, o2) => Some (s2, t2, o1 ++ o2)
      | None => None
      end
  | None => None
  end.
Proof.
  revert s t. induction a as [|c a IH]; intros s t.
  - change (EmptyString +:+ b) with b. cbn [Html.scan].
    by destruct (Html.scan s t b) as [[[? ?] ?]|].
  - change (String c a +:+ b) with (String c (a +:+ b)). cbn [Html.scan].
    destruct (Html.step s t c) as [[[s1 t1] o1]|]; [|reflexivity].
    rewrite IH. destruct (Html.scan s1 t1 a) as [[[s2 t2] o2]|]; [|reflexivity].
    destruct (Html.scan s2 t2 b) as [[[s3 t3] o3]|]; [|reflexivity].
    by rewrite app_assoc.
Qed.

Lemma scan_cat (s s1 s2 : Html.state) (t t1 t2 : Html.tag) (o1 o2 : list Html.token)
    (a b : string) :
  Html.scan s t a = Some (s1, t1, o1) ->
  Html.scan s1 t1 b = Some (s2, t2, o2) ->
  Html.scan s t (a +:+ b) = Some (s2, t2, o1 ++ o2).
Proof. intros Ha Hb. by rewrite scan_app, Ha, Hb. Qed.

(** Text without [<], [&], NUL and CR is passed on character by
    character. *)
Lemma scan_text (s : string) :
  Html.text_safe s = true ->
  Html.scan Html.Data Html.no_tag s
  = Some (Html.Data, Html.no_tag, Html.TChar <$> Html.chars s).
Proof.
  induction s as [|c s IH]; intros H; [reflexivity|].
  unfold Html.text_safe in H. cbn [Html.chars list_ascii_of_string forallb] in H.
  apply andb_true_iff in H as [Hc Hs]. apply negb_true_iff in Hc.
  apply orb_false_iff in Hc as [Hc H13]. apply orb_false_iff in Hc as [Hc H0].
  apply orb_false_iff in Hc as [H60 H38].
  cbn [Html.scan]. unfold Html.step, Html.in_data. rewrite H13, H60, H38, H0.
  rewrite (IH Hs). reflexivity.
Qed.

(** Inside a double-quoted attribute value, text without the quote, [&],
    NUL and CR is added to the value as it is. *)
Lemma scan_value (t : Html.tag) (s : string) :
  Html.attribute_safe s = true ->
  Html.scan Html.AttributeValueDoubleQuoted t s
  = Some (Html.AttributeValueDoubleQuoted,
          Html.with_attribute_value (Html.attribute_value t +:+ s) t, []).
Proof.
  revert t. induction s as [|c s IH]; intros t H.
  - cbn [Html.scan]. rewrite append_empty_r. by destruct t.
  - unfold Html.attribute_safe in H. cbn [Html.chars list_ascii_of_string forallb] in H.
    apply andb_true_iff in H as [Hc Hs]. apply negb_true_iff in Hc.
    apply orb_false_iff in Hc as [Hc H13]. apply orb_false_iff in Hc as [Hc H0].
    apply orb_false_iff in Hc as [H34 H38].
    cbn [Html.scan]. unfold Html.step, Html.in_attribute_value_quoted.
    rewrite H13, H34, H38, H0. rewrite (IH _ Hs).
    unfold Html.to_attribute_value, Html.with_attribute_value.
    cbn [Html.attribute_value Html.is_end Html.tag_name Html.attributes
         Html.has_attribute Html.attribute_name app].
    by rewrite snoc_append.
Qed.

Lemma feed_app (ctx : Html.context) (l1 l2 : list Html.token) (b : Html.builder) :
  Html.feed ctx (l1 ++ l2) b =
  match Html.feed ctx l1 b with
  | Some b1 => Html.feed ctx l2 b1
  | None => None
  end.
Proof.
  revert b. induction l1 as [|tok l1 IH]; intros b; [reflexivity|].
  cbn [app Html.feed]. by destruct (Html.feed1 ctx tok b).
Qed.

Lemma feed_cat (ctx : Html.context) (l1 l2 : list Html.token) (b b1 b2 : Html.builder) :
  Html.feed ctx l1 b = Some b1 ->
  Html.feed ctx l2 b1 = Some b2 ->
  Html.feed ctx (l1 ++ l2) b = Some b2.
Proof. intros H1 H2. by rewrite feed_app, H1. Qed.

(** A run of characters joins the text of the current node. *)
Lemma feed_text (ctx : Html.context) (s : string) (f : Html.frame)
    (below : list Html.frame) (skip : bool) :
  (skip && Html.starts_with_newline s)%bool = false ->
  Html.feed ctx (Html.TChar <$> Html.chars s) (f :: below, skip)
  = Some (Html.add_text s f :: below, (skip && Html.is_empty s)%bool).
Proof.
  revert f skip. induction s as [|c s IH]; intros f skip H.
  - cbn [Html.chars list_ascii_of_string fmap list_fmap Html.feed Html.is_empty].
    rewrite andb_true_r. unfold Html.add_text. rewrite append_empty_r. by destruct f.
  - cbn [Html.chars list_ascii_of_string fmap list_fmap Html.feed Html.feed1 fst snd].
    cbn [Html.starts_with_newline] in H. rewrite H.
    cbn [Html.insert_character]. fold (Html.chars s).
    rewrite (IH _ false eq_refl). cbn [Html.is_empty andb]. rewrite andb_false_r.
    unfold Html.add_text. cbn [Html.open_tag Html.open_attrs Html.placed Html.text_run].
    by rewrite append_assoc.
Qed.

Lemma parse_by (ctx : Html.context) (markup : string) (s : Html.state) (t : Html.tag)
    (out : list Html.token) (stack : list Html.frame) (skip : bool)
    (kids : list Dom.node) :
  Html.scan Html.Data Html.no_tag markup = Some (s, t, out) ->
  Html.feed ctx (out ++ Html.at_end s) ([Html.root_frame], false) = Some (stack, skip) ->
  Html.close_all stack = kids ->
  Html.parse ctx markup = Some kids.
Proof. intros Hs Hf <-. unfold Html.parse. by rewrite Hs, Hf. Qed.

(** The tokenizer and the tree builder over a template literal, piece by
    piece: the literal pieces by computation, the interpolated strings by
    the lemmas above. *)
Ltac scan_pieces :=
  lazymatch goal with
  | |- Html.scan _ _ (_ +:+ _) = _ => eapply scan_cat; [scan_pieces | scan_pieces]
  | |- Html.scan Html.Data _ ?x = _ =>
      first [ is_var x; apply scan_text; assumption | lazy; reflexivity ]
  | |- Html.scan Html.AttributeValueDoubleQuoted _ ?x = _ =>
      first [ is_var x; apply scan_value; assumption | lazy; reflexivity ]
  | |- Html.scan _ _ _ = _ => lazy; reflexivity
  end.

Ltac feed_pieces :=
  lazymatch goal with
  | |- Html.feed _ (_ ++ _) _ = _ => eapply feed_cat; [feed_pieces | feed_pieces]
  | |- Html.feed _ (Html.TChar <$> Html.chars _) _ = _ =>
      apply feed_text; first [ reflexivity | assumption ]
  | |- Html.feed _ _ _ = _ => lazy; reflexivity
  end.

(** The markup of the badge holds the two status words only: the parser
    builds the trees of the model from it. *)
Lemma status_badge_parse (overallStatus : string) :
  overallStatus = "FAIL" \/ overallStatus = "PASS" ->
  let assigned := fragment_or (status_badge overallStatus) (plain "Processing...") in
  Html.parse Html.Flow (source assigned) = Some (nodes assigned).
Proof. intros [-> | ->]; vm_compute; reflexivity. Qed.


(** The same for the markup of a table row. *)
Lemma row_cells_parse (finding : Finding) :
  plain_finding finding = true -> row_as_parsed finding (new_row (row_cells finding)).
Proof.
  destruct finding as [id ty ctl st ev].
  unfold row_as_parsed, new_row, plain_finding, is_FAIL, row_cells.
  cbn [Dom.childNodes finding_id finding_type finding_control finding_status
       finding_evidence].
  intros H. apply andb_true_iff in H as [H Hev].
  apply andb_true_iff in H as [H Hst]. apply andb_true_iff in H as [H Hctl].
  apply andb_true_iff in H as [Hid Hty]. cbv zeta.
  destruct (String.eqb st "FAIL") eqn:EF.
  - apply String.eqb_eq in EF. subst st.
    change (String.eqb "FAIL" "PASS") with false. cbv iota.
    cbn [negb orb] in Hev. apply andb_true_iff in Hev as [Hattr Hpre].
    unfold evidence_controls.
    cbn [source nodes finding_id finding_evidence].
    remember (Js.ToString (Json.stringify ev)) as e eqn:He. clear He.
    apply andb_true_iff in Hpre as [Hpre Hnl]. apply negb_true_iff in Hnl.
    eapply parse_by; [scan_pieces | feed_pieces | destruct id, ty, ctl, e; reflexivity].
  - clear Hev. destruct (String.eqb st "PASS") eqn:EP.
    + apply String.eqb_eq in EP. subst st. cbn [source nodes not_applicable].
      eapply parse_by; [scan_pieces | feed_pieces | destruct id, ty, ctl; reflexivity].
    + cbn [source nodes not_applicable].
      eapply parse_by; [scan_pieces | feed_pieces | destruct id, ty, ctl, st; reflexivity].
Qed.

Lemma forallb_lookup {A} (p : A -> bool) (l : list A) (i : nat) (x : A) :
  forallb p l = true -> l !! i = Some x -> p x = true.
Proof.
  revert i. induction l as [|y l IH]; intros i H Hi; [discriminate Hi|].
  cbn [forallb] in H. apply andb_true_iff in H as [Hy Hl].
  destruct i as [|i]; [by injection Hi as <-|]. by apply (IH i).
Qed.

(** The rows built for plain findings are the rows the parser builds. *)
Lemma table_rows_as_parsed (fs : list Finding) :
  forallb plain_finding fs = true -> Forall2 row_as_parsed fs (table_rows fs).
Proof.
  induction fs as [|f fs IH]; intros H; [constructor|].
  cbn [forallb] in H. apply andb_true_iff in H as [Hf Hfs].
  unfold table_rows. cbn [fmap list_fmap]. constructor; [by apply row_cells_parse|].
  by apply IH.
Qed.



(** ** Recommendations panel *)







(** A name every object inherits is found in the catalog although the
    catalog does not map it: the item for the id toString reads the text
    of the inherited function, not the fallback sentence. *)
Lemma inherited_name_is_found :
  let finding := {| finding_id := "toString"; finding_type := "process";
                    finding_control := "Commit signing"; finding_status := "FAIL";
                    finding_evidence := None |} in
  let w' := world_after (renderReport (payload scenario_metadata scenario_stats [finding]))
                        (blank_world None) in
  RECOMMENDATIONS_MAP !! finding_id finding = None
  /\ elements (recommendations_list (document w'))
     = [recommendation_li "toString" "function toString() { [native code] }"]
  /\ elements (recommendations_list (document w'))
     <> [recommendation_li "toString" (fallbackText "toString")].
Proof.
  intros finding w'.
  assert (H : elements (recommendations_list (document w'))
              = [recommendation_li "toString" "function toString() { [native code] }"])
    by reflexivity.
  split; [reflexivity|]. split; [exact H|].
  rewrite H. discriminate.
Qed.


(** ** Chart *)

Lemma paint_nothing (passCount failCount : Z) (w : World) :
  resultsChart (document w) = None \/ passCount + failCount = 0 ->
  on_document (with_resultsChart (paint passCount failCount)) w = w.
Proof.
  destruct w as [[fl sv tb ch pd rl] co]. page_simpl. unfold paint.
  intros [-> | H]; [reflexivity|].
  destruct ch as [c|]; [|reflexivity]. by rewrite H.
Qed.

Lemma fractions_fill_the_turn (passCount failCount : Z) :
  passCount + failCount <> 0 ->
  (2 * PI * (IZR passCount / IZR (passCount + failCount))
   + 2 * PI * (IZR failCount / IZR (passCount + failCount)) = 2 * PI)%R.
Proof.
  intros H. apply not_0_IZR in H. rewrite plus_IZR in *. field. exact H.
Qed.

(** C7: the chart drawer does nothing when the surface is absent or when
    [passCount + failCount = 0]; otherwise it issues exactly the calls of
    two filled sectors around the centre of the surface, with radius
    min(half-width, half-height) - 10: the pass sector from angle 0 over
    [2 PI passCount / (passCount + failCount)], the fail sector from there
    to a full revolution, so that its span is the remainder
    [2 PI failCount / (passCount + failCount)]. *)
Theorem drawSimpleChart_sectors (passCount failCount : Z) (w : World) :
  (resultsChart (document w) = None \/ passCount + failCount = 0 ->
   drawSimpleChart passCount failCount w = (w, Normal tt))
  /\ (forall c : Canvas,
        resultsChart (document w) = Some c ->
        passCount + failCount <> 0 ->
        let turn := (2 * PI)%R in
        let passSpan := (turn * (IZR passCount / IZR (passCount + failCount)))%R in
        let failSpan := (turn * (IZR failCount / IZR (passCount + failCount)))%R in
        let centerX := (IZR (width c) / 2)%R in
        let centerY := (IZR (height c) / 2)%R in
        let radius := (Rmin centerX centerY - 10)%R in
        completion_of (drawSimpleChart passCount failCount) w = Normal tt
        /\ resultsChart (document (world_after (drawSimpleChart passCount failCount) w))
           = Some {| width := width c; height := height c;
                     drawn := drawn c ++
                       [ BeginPath; MoveTo centerX centerY;
                         Arc centerX centerY radius 0%R passSpan;
                         ClosePath; FillStyle "#073b0f"; Fill;
                         BeginPath; MoveTo centerX centerY;
                         Arc centerX centerY radius passSpan turn;
                         ClosePath; FillStyle "#8c1515"; Fill ] |}
        /\ (passSpan + failSpan = turn)%R).
Proof.
  split.
  - intros H. by rewrite drawSimpleChart_paints, paint_nothing.
  - intros c Hc Hne turn passSpan failSpan centerX centerY radius.
    unfold completion_of, world_after. rewrite drawSimpleChart_paints.
    cbn [fst snd]. split; [reflexivity|].
    assert (Hsum : (passSpan + failSpan = turn)%R)
      by (apply fractions_fill_the_turn; exact Hne).
    split; [|exact Hsum].
    destruct w as [[fl sv tb ch pd rl] co]. page_simpl. cbn [resultsChart document] in Hc.
    subst ch. unfold paint. apply Z.eqb_neq in Hne. rewrite Hne.
    unfold chart_ops. fold centerX centerY radius.
    replace (0 + PI * 2 * (IZR passCount / IZR (passCount + failCount)))%R
      with passSpan by (unfold passSpan, turn; ring).
    replace (0 + PI * 2 * (IZR passCount / IZR (passCount + failCount)
                           + IZR failCount / IZR (passCount + failCount)))%R
      with turn by (rewrite <- Hsum; unfold passSpan, failSpan, turn; ring).
    reflexivity.
Qed.

(** C7 for counts 3 and 1 on a blank surface of 200 by 200. *)
Lemma drawSimpleChart_sectors_witness :
  let c := {| width := 200; height := 200; drawn := [] |} in
  let w := blank_world (Some c) in
  let turn := (2 * PI)%R in
  let passSpan := (turn * (IZR 3 / IZR (3 + 1)))%R in
  let failSpan := (turn * (IZR 1 / IZR (3 + 1)))%R in
  let centerX := (IZR (width c) / 2)%R in
  let centerY := (IZR (height c) / 2)%R in
  let radius := (Rmin centerX centerY - 10)%R in
  completion_of (drawSimpleChart 3 1) w = Normal tt
  /\ resultsChart (document (world_after (drawSimpleChart 3 1) w))
     = Some {| width := width c; height := height c;
               drawn := drawn c ++
                 [ BeginPath; MoveTo centerX centerY;
                   Arc centerX centerY radius 0%R passSpan;
                   ClosePath; FillStyle "#073b0f"; Fill;
                   BeginPath; MoveTo centerX centerY;
                   Arc centerX centerY radius passSpan turn;
                   ClosePath; FillStyle "#8c1515"; Fill ] |}
  /\ (passSpan + failSpan = turn)%R.
Proof.
  intros c w.
  refine (proj2 (drawSimpleChart_sectors 3 1 w) c _ _); [reflexivity | lia].
Defined.

(** With counts 3 and 1 the two sectors span three quarters and one
    quarter of a revolution; with counts 0 and 0 nothing is drawn. *)
Lemma chart_three_to_one (c : Canvas) :
  exists x y r,
    paint 3 1 (Some c)
    = Some {| width := width c; height := height c;
              drawn := drawn c ++
                [ BeginPath; MoveTo x y; Arc x y r 0%R (3 / 4 * (2 * PI))%R;
                  ClosePath; FillStyle "#073b0f"; Fill;
                  BeginPath; MoveTo x y;
                  Arc x y r (3 / 4 * (2 * PI))%R (3 / 4 * (2 * PI) + 1 / 4 * (2 * PI))%R;
                  ClosePath; FillStyle "#8c1515"; Fill ] |}.
Proof.
  do 3 eexists. unfold paint, chart_ops.
  change (3 + 1) with 4. change (4 =? 0) with false. cbv iota.
  replace (0 + PI * 2 * (3 / 4))%R with (3 / 4 * (2 * PI))%R by lra.
  replace (0 + PI * 2 * (3 / 4 + 1 / 4))%R
    with (3 / 4 * (2 * PI) + 1 / 4 * (2 * PI))%R by lra.
  reflexivity.
Qed.

Lemma chart_zero_zero (surface : option Canvas) : paint 0 0 surface = surface.
Proof. by destruct surface. Qed.

(** ** Findings table *)

Lemma is_FAIL_true (finding : Finding) :
  is_FAIL finding = true <-> finding_status finding = "FAIL".
Proof. unfold is_FAIL. apply String.eqb_eq. Qed.

Lemma table_rows_lookup (fs : list Finding) (i : nat) (finding : Finding) :
  fs !! i = Some finding ->
  table_rows fs !! i = Some (new_row (row_cells finding)).
Proof. intros H. unfold table_rows. by rewrite list_lookup_fmap, H. Qed.

Lemma table_rows_length (fs : list Finding) : length (table_rows fs) = length fs.
Proof. unfold table_rows. apply length_fmap. Qed.

(** The row of a failed finding, written out. *)
Lemma failed_row_in_state (finding : Finding) (d label : string) :
  finding_status finding = "FAIL" ->
  row_in_state finding d label =
  Dom.Elem "tr" [] EmptyString
    [Dom.Text (Js.nl +:+ Js.spaces 12);
     Dom.Elem "td" [] EmptyString [Dom.Text (finding_id finding)];
     Dom.Text (Js.nl +:+ Js.spaces 12);
     Dom.Elem "td" [] EmptyString [Dom.Text (finding_type finding)];
     Dom.Text (Js.nl +:+ Js.spaces 12);
     Dom.Elem "td" [] EmptyString [Dom.Text (finding_control finding)];
     Dom.Text (Js.nl +:+ Js.spaces 12);
     Dom.Elem "td" [] EmptyString
       [Dom.Elem "span" [("class", "status-fail")] EmptyString [Dom.Text "FAIL"]];
     Dom.Text (Js.nl +:+ Js.spaces 12);
     Dom.Elem "td" [] EmptyString
       [Dom.Text (Js.nl +:+ Js.spaces 16);
        Dom.Elem "button"
          [("class", "toggle-details"); ("onclick", "toggleEvidence(this)")] EmptyString
          [Dom.Text label];
        Dom.Text (Js.nl +:+ Js.spaces 21);
        Dom.Elem "div"
          [("class", "evidence-details"); ("id", "details-" +:+ finding_id finding)] d
          [Dom.Text (Js.nl +:+ Js.spaces 24);
           Dom.Elem "pre" [] EmptyString
             [Dom.Text (Js.ToString (Json.stringify (finding_evidence finding)))];
           Dom.Text (Js.nl +:+ Js.spaces 21)];
        Dom.Text (Js.nl +:+ Js.spaces 12)];
     Dom.Text (Js.nl +:+ Js.spaces 8)].
Proof.
  intros H. unfold row_in_state, new_row, row_cells. rewrite H. reflexivity.
Qed.

Lemma failed_row_fresh (finding : Finding) :
  finding_status finding = "FAIL" ->
  new_row (row_cells finding) = row_in_state finding EmptyString "Show Evidence".
Proof.
  intros H. rewrite failed_row_in_state by exact H.
  unfold new_row, row_cells. rewrite H. reflexivity.
Qed.

(** The row of a passed finding, written out. *)
Lemma passed_row (finding : Finding) :
  finding_status finding = "PASS" ->
  new_row (row_cells finding) =
  Dom.Elem "tr" [] EmptyString
    [Dom.Text (Js.nl +:+ Js.spaces 12);
     Dom.Elem "td" [] EmptyString [Dom.Text (finding_id finding)];
     Dom.Text (Js.nl +:+ Js.spaces 12);
     Dom.Elem "td" [] EmptyString [Dom.Text (finding_type finding)];
     Dom.Text (Js.nl +:+ Js.spaces 12);
     Dom.Elem "td" [] EmptyString [Dom.Text (finding_control finding)];
     Dom.Text (Js.nl +:+ Js.spaces 12);
     Dom.Elem "td" [] EmptyString
       [Dom.Elem "span" [("class", "status-pass")] EmptyString [Dom.Text "PASS"]];
     Dom.Text (Js.nl +:+ Js.spaces 12);
     Dom.Elem "td" [] EmptyString
       [Dom.Text (Js.nl +:+ Js.spaces 16);
        Dom.Elem "span" [] EmptyString [Dom.Text "N/A"];
        Dom.Text (Js.nl +:+ Js.spaces 12)];
     Dom.Text (Js.nl +:+ Js.spaces 8)].
Proof.
  intros H. unfold new_row, row_cells. rewrite H. reflexivity.
Qed.

(** Positions inside the rows of a table. *)
Lemma node_at_in_row (rows : list Dom.node) (i : nat) (tag : string)
    (attrs : list (string * string)) (d : string) (kids : list Dom.node)
    (k : nat) (p : Dom.path) :
  rows !! i = Some (Dom.Elem tag attrs d kids) ->
  Dom.node_at rows (i :: k :: p) = Dom.node_at kids (k :: p).
Proof. intros H. cbn [Dom.node_at]. by rewrite H. Qed.

Lemma siblings_at_in_row (rows : list Dom.node) (i : nat) (tag : string)
    (attrs : list (string * string)) (d : string) (kids : list Dom.node)
    (k : nat) (p : Dom.path) :
  rows !! i = Some (Dom.Elem tag attrs d kids) ->
  Dom.siblings_at rows (i :: k :: p) = Dom.siblings_at kids (k :: p).
Proof. intros H. cbn [Dom.siblings_at]. by rewrite H. Qed.

(** In a table whose row [i] is the row of a failed finding, the toggle
    of that row is immediately followed by the evidence block. *)
Lemma toggle_then_evidence (rows : list Dom.node) (i : nat) (finding : Finding)
    (d label : string) :
  finding_status finding = "FAIL" ->
  rows !! i = Some (row_in_state finding d label) ->
  Dom.nextElementSibling rows (toggle_of_row i) = Some (evidence_of_row i)
  /\ Dom.node_at rows (toggle_of_row i)
     = Some (Dom.Elem "button"
               [("class", "toggle-details"); ("onclick", "toggleEvidence(this)")]
               EmptyString [Dom.Text label])
  /\ Dom.node_at rows (evidence_of_row i)
     = Some (Dom.Elem "div"
               [("class", "evidence-details"); ("id", "details-" +:+ finding_id finding)] d
               [Dom.Text (Js.nl +:+ Js.spaces 24);
                Dom.Elem "pre" [] EmptyString
                  [Dom.Text (Js.ToString (Json.stringify (finding_evidence finding)))];
                Dom.Text (Js.nl +:+ Js.spaces 21)]).
Proof.
  intros Hf Hrow. rewrite failed_row_in_state in Hrow by exact Hf.
  unfold Dom.nextElementSibling, toggle_of_row, evidence_of_row.
  rewrite (siblings_at_in_row _ _ _ _ _ _ _ _ Hrow).
  rewrite !(node_at_in_row _ _ _ _ _ _ _ _ Hrow).
  repeat split.
Qed.

(** C9, as stated, fails: for the FAIL finding whose id is an a, a double
    quote and a 1, the parser ends the [id] attribute at the quote, so that
    the block after the toggle has the identifier [details-a], and no
    element of the row has the identifier [details-] followed by the
    id. *)
Lemma table_builder_rows_refuted :
  let finding := {| finding_id := "a" +:+ Js.dq +:+ "1"; finding_type := "process";
                    finding_control := "Commit signing"; finding_status := "FAIL";
                    finding_evidence := None |} in
  finding_status finding = "FAIL"
  /\ exists kids,
      Html.parse Html.Row (source (row_cells finding)) = Some kids
      /\ Dom.id_of <$> Dom.node_at kids [9; 3]%nat = Some "details-a"
      /\ Forall (fun n => Dom.id_of n <> "details-" +:+ finding_id finding)
                (flat_map descendants kids).
Proof.
  intros finding. split; [reflexivity|].
  eexists. split; [vm_compute; reflexivity|]. split; [reflexivity|].
  cbn [flat_map descendants app]. repeat constructor; discriminate.
Qed.

(** C9, amended: for findings whose statuses are PASS or FAIL and whose
    strings hold no markup ([plain_finding]) the table builder appends one
    row per finding, in input order, showing id, type, control and status;
    the children of the row are those the parser builds from the template
    literal.  The actions cell of a FAIL row holds a toggle control
    immediately followed by the evidence block: a [div] of class
    [evidence-details], identifier [details-<id>], inline display unset,
    whose [pre] holds [JSON.stringify(evidence, null, 2)], that is, the
    evidence on indented lines ([nested_evidence_text] for
    [nested_evidence]).  The actions cell of a PASS row holds the marker
    N/A, and no node of the row is an evidence block or has an
    identifier. *)
Theorem table_builder_rows (md : Metadata) (st : Stats) (fs : list Finding) (w : World) :
  Forall (fun finding =>
            finding_status finding = "PASS" \/ finding_status finding = "FAIL") fs ->
  forallb plain_finding fs = true ->
  let w' := world_after (renderReport (payload md st fs)) w in
  exists built,
    findings_tbody (document w') = findings_tbody (document w) ++ built
    /\ length built = length fs
    /\ forall (i : nat) (finding : Finding),
        fs !! i = Some finding ->
        exists row c_id c_type c_control c_status actions,
          built !! i = Some row
          /\ Dom.tagName row = "tr"
          /\ row_as_parsed finding row
          /\ Dom.children row = [c_id; c_type; c_control; c_status; actions]
          /\ Dom.textContent c_id = finding_id finding
          /\ Dom.textContent c_type = finding_type finding
          /\ Dom.textContent c_control = finding_control finding
          /\ Dom.textContent c_status = finding_status finding
          /\ ((finding_status finding = "FAIL"
               /\ exists toggle block pre,
                   Dom.children actions = [toggle; block]
                   /\ Dom.node_at built (toggle_of_row i) = Some toggle
                   /\ Dom.nextElementSibling built (toggle_of_row i)
                      = Some (evidence_of_row i)
                   /\ Dom.node_at built (evidence_of_row i) = Some block
                   /\ Dom.tagName toggle = "button"
                   /\ Dom.className toggle = "toggle-details"
                   /\ Dom.attribute "onclick" toggle = Some "toggleEvidence(this)"
                   /\ Dom.textContent toggle = "Show Evidence"
                   /\ Dom.tagName block = "div"
                   /\ Dom.className block = "evidence-details"
                   /\ Dom.id_of block = "details-" +:+ finding_id finding
                   /\ Dom.style_display block = EmptyString
                   /\ Dom.children block = [pre]
                   /\ Dom.tagName pre = "pre"
                   /\ Dom.textContent pre
                      = match finding_evidence finding with
                        | Some evidence => Json.SerializeJSONProperty EmptyString evidence
                        | None => "undefined"
                        end
                   /\ (finding_evidence finding = Some nested_evidence ->
                       Dom.textContent pre = nested_evidence_text))
              \/ (finding_status finding = "PASS"
                  /\ exists marker,
                      Dom.children actions = [marker]
                      /\ Dom.tagName marker = "span"
                      /\ Dom.textContent marker = "N/A"
                      /\ Forall (fun n => Dom.className n <> "evidence-details"
                                          /\ Dom.id_of n = EmptyString)
                                (descendants row))).
Proof.
  intros Hst Hplain w'. exists (table_rows fs).
  split; [unfold w'; by rewrite world_after_payload|].
  split; [apply table_rows_length|].
  intros i finding Hi.
  pose proof (table_rows_lookup _ _ _ Hi) as Hrow.
  pose proof (row_cells_parse finding (forallb_lookup _ _ _ _ Hplain Hi)) as Hparsed.
  destruct (Forall_lookup_1 _ _ _ _ Hst Hi) as [Hs|Hs].
  - (* PASS *)
    rewrite (passed_row _ Hs) in Hrow, Hparsed.
    do 6 eexists. split; [exact Hrow|].
    split; [reflexivity|]. split; [exact Hparsed|]. split; [reflexivity|].
    cbn [Dom.textContent]. rewrite !append_empty_r, Hs.
    do 4 (split; [reflexivity|]).
    right. split; [reflexivity|]. eexists.
    split; [reflexivity|]. split; [reflexivity|]. split; [reflexivity|].
    cbn [descendants app]. repeat constructor; discriminate.
  - (* FAIL *)
    rewrite (failed_row_fresh _ Hs) in Hrow, Hparsed.
    destruct (toggle_then_evidence _ _ _ _ _ Hs Hrow) as (Hnext & Htoggle & Hblock).
    rewrite (failed_row_in_state _ _ _ Hs) in Hrow, Hparsed.
    do 6 eexists. split; [exact Hrow|].
    split; [reflexivity|]. split; [exact Hparsed|]. split; [reflexivity|].
    cbn [Dom.textContent]. rewrite !append_empty_r, Hs.
    do 4 (split; [reflexivity|]).
    left. split; [reflexivity|]. do 3 eexists.
    split; [reflexivity|]. split; [exact Htoggle|]. split; [exact Hnext|].
    split; [exact Hblock|].
    repeat (split; [reflexivity|]).
    cbn [Dom.textContent]. rewrite append_empty_r.
    split; [by destruct (finding_evidence finding)|].
    intros ->. reflexivity.
Qed.

(** ** Evidence toggle *)

Lemma find_in_nodes_skip (i : string) (l1 l2 : list Dom.node) (k : nat) :
  Forall (fun n => Dom.find_in_node i n = None) l1 ->
  Dom.find_in_nodes i (l1 ++ l2) k = Dom.find_in_nodes i l2 (k + length l1)%nat.
Proof.
  intros H. revert k. induction H as [|n l1 Hn _ IH]; intros k.
  - cbn [app length]. by rewrite Nat.add_0_r.
  - cbn [app length Dom.find_in_nodes]. rewrite Hn, IH. f_equal. lia.
Qed.

(** The identifiers a row carries: that of its evidence block, if it is
    the row of a failed finding. *)
Lemma find_in_fresh_row (i : string) (finding : Finding) :
  Dom.find_in_node i (new_row (row_cells finding))
  = if (is_FAIL finding && String.eqb ("details-" +:+ finding_id finding) i)%bool
    then Some [9; 3]%nat else None.
Proof.
  unfold new_row, row_cells, is_FAIL.
  destruct (String.eqb (finding_status finding) "FAIL");
    destruct (String.eqb (finding_status finding) "PASS");
    cbn [nodes evidence_controls not_applicable app Dom.find_in_node Dom.has_id
         Dom.getAttribute String.eqb Ascii.eqb Bool.eqb andb];
    try reflexivity;
    destruct (String.eqb ("details-" +:+ finding_id finding) i); reflexivity.
Qed.

Lemma find_in_row_in_state (finding : Finding) (d label : string) :
  finding_status finding = "FAIL" ->
  Dom.find_in_node ("details-" +:+ finding_id finding) (row_in_state finding d label)
  = Some [9; 3]%nat.
Proof.
  intros H. rewrite failed_row_in_state by exact H.
  cbn [Dom.find_in_node Dom.has_id Dom.getAttribute String.eqb Ascii.eqb Bool.eqb].
  by rewrite String.eqb_refl.
Qed.

Lemma details_id_inj (a b : string) :
  String.eqb ("details-" +:+ a) ("details-" +:+ b) = String.eqb a b.
Proof. reflexivity. Qed.

(** With distinct finding ids, the lookup of [details-<id>] reaches the
    evidence block of the row of that finding. *)
Lemma getElementById_details (fs : list Finding) (i : nat) (finding : Finding)
    (d label : string) :
  NoDup (finding_id <$> fs) ->
  fs !! i = Some finding ->
  finding_status finding = "FAIL" ->
  Dom.getElementById ("details-" +:+ finding_id finding)
    (<[i := row_in_state finding d label]> (table_rows fs))
  = Some (evidence_of_row i).
Proof.
  intros Hnd Hi Hf. unfold Dom.getElementById.
  change (String.eqb ("details-" +:+ finding_id finding) EmptyString) with false.
  cbv iota.
  assert (Hlen : (i < length (table_rows fs))%nat).
  { rewrite table_rows_length. by eapply lookup_lt_Some. }
  rewrite insert_take_drop by exact Hlen.
  rewrite find_in_nodes_skip.
  - cbn [Dom.find_in_nodes]. rewrite find_in_row_in_state by exact Hf.
    rewrite length_take_le by lia. reflexivity.
  - apply Forall_lookup. intros j row Hj.
    apply lookup_take_Some in Hj as [Hj Hlt].
    unfold table_rows in Hj. rewrite list_lookup_fmap in Hj.
    destruct (fs !! j) as [g|] eqn:Hg; [|discriminate Hj].
    cbn [fmap option_fmap option_map] in Hj. injection Hj as <-.
    rewrite find_in_fresh_row, details_id_inj.
    destruct (String.eqb (finding_id g) (finding_id finding)) eqn:E.
    + apply String.eqb_eq in E. exfalso.
      assert (j = i); [|lia].
      eapply (NoDup_lookup _ _ _ (finding_id finding) Hnd).
      * by rewrite list_lookup_fmap, Hg, <- E.
      * by rewrite list_lookup_fmap, Hi.
    + by rewrite andb_false_r.
Qed.

Lemma alter_inserted {A} (g : A -> A) (i : nat) (x : A) (l : list A) :
  alter g i (<[i := x]> l) = <[i := g x]> l.
Proof. by rewrite !list_insert_alter, list_alter_alter_eq. Qed.

(** One click: what [toggleEvidence] does to a table whose row [i] is the
    row of a failed finding. *)
Lemma toggleEvidence_click (fs : list Finding) (i : nat) (finding : Finding)
    (d label : string) (w : World) :
  NoDup (finding_id <$> fs) ->
  fs !! i = Some finding ->
  finding_status finding = "FAIL" ->
  findings_tbody (document w) = <[i := row_in_state finding d label]> (table_rows fs) ->
  let collapsed := (String.eqb d "none" || String.eqb d EmptyString)%bool in
  toggleEvidence (toggle_of_row i) w
  = (on_document
       (with_findings_tbody
          (fun _ => <[i := row_in_state finding
                             (if collapsed then "block" else "none")
                             (if collapsed then "Hide Evidence" else "Show Evidence")]>
                      (table_rows fs))) w,
     Normal tt).
Proof.
  intros Hnd Hi Hf Hrows collapsed.
  assert (Hlen : (i < length (table_rows fs))%nat).
  { rewrite table_rows_length. by eapply lookup_lt_Some. }
  assert (Hrow : findings_tbody (document w) !! i = Some (row_in_state finding d label)).
  { rewrite Hrows. by apply list_lookup_insert_eq. }
  destruct (toggle_then_evidence _ _ _ _ _ Hf Hrow) as (Hnext & _ & Hblock).
  unfold toggleEvidence. rewrite Hnext.
  cbn [mbind option_bind]. rewrite Hblock.
  rewrite run_bind. cbn [deref mret JS_ret Dom.id_of Dom.getAttribute String.eqb
                         Ascii.eqb Bool.eqb from_option Datatypes.id].
  rewrite Hrows at 1. rewrite getElementById_details by assumption.
  rewrite run_bind. cbn [deref mret JS_ret]. rewrite Hblock.
  cbn [fmap option_fmap option_map Dom.style_display]. rewrite run_bind.
  cbn [deref mret JS_ret]. fold collapsed.
  assert (Hset : forall d' label',
    Dom.modify_at (Dom.set_textContent label') (toggle_of_row i)
      (Dom.modify_at (Dom.set_display d') (evidence_of_row i)
         (<[i := row_in_state finding d label]> (table_rows fs)))
    = <[i := row_in_state finding d' label']> (table_rows fs)).
  { intros d' label'. unfold toggle_of_row, evidence_of_row.
    cbn [Dom.modify_at]. rewrite !alter_inserted.
    rewrite !failed_row_in_state by exact Hf. reflexivity. }
  destruct w as [[fl sv tb ch pd rl] co]. cbn [document findings_tbody] in Hrows.
  subst tb.
  destruct collapsed; rewrite run_bind;
    unfold mutate, on_document, with_findings_tbody; page_simpl; by rewrite Hset.
Qed.

Lemma next_click (k : nat) :
  let collapsed := (String.eqb (display_after k) "none"
                    || String.eqb (display_after k) EmptyString)%bool in
  (if collapsed then "block" else "none") = display_after (S k)
  /\ (if collapsed then "Hide Evidence" else "Show Evidence") = label_after (S k).
Proof.
  destruct k as [|k]; [split; reflexivity|].
  unfold display_after, label_after.
  rewrite (Nat.odd_succ (S k)), <- Nat.negb_odd.
  destruct (Nat.odd (S k)); split; reflexivity.
Qed.

(** [n] clicks on the toggle of row [i], [k] clicks after the table was
    rendered. *)
Lemma clicks_run (fs : list Finding) (i : nat) (finding : Finding) :
  NoDup (finding_id <$> fs) ->
  fs !! i = Some finding ->
  finding_status finding = "FAIL" ->
  forall (n k : nat) (w : World),
    findings_tbody (document w)
    = <[i := row_in_state finding (display_after k) (label_after k)]> (table_rows fs) ->
    clicks n (toggle_of_row i) w
    = (on_document
         (with_findings_tbody
            (fun _ => <[i := row_in_state finding (display_after (k + n))
                                          (label_after (k + n))]> (table_rows fs))) w,
       Normal tt).
Proof.
  intros Hnd Hi Hf. induction n as [|n IH]; intros k w Hrows.
  - rewrite Nat.add_0_r. destruct w as [[fl sv tb ch pd rl] co].
    cbn [document findings_tbody] in Hrows. subst tb. reflexivity.
  - cbn [clicks]. rewrite run_bind.
    rewrite (toggleEvidence_click fs i finding _ _ w Hnd Hi Hf Hrows).
    destruct (next_click k) as [-> ->].
    rewrite (IH (S k)).
    + replace (S k + n)%nat with (k + S n)%nat by lia. by destruct w as [[] ?].
    + by destruct w as [[] ?].
Qed.

(** C8, as stated, fails: two FAIL findings whose ids are an a, a double
    quote and then 1 or 2 have distinct ids, yet in the rows the parser
    builds both evidence blocks get the identifier [details-a]; one click
    on the toggle of the second row opens the block of the first row and
    leaves its own block collapsed, under a toggle that reads Hide
    Evidence. *)
Lemma toggleEvidence_parity_refuted :
  let quoted (n : string) :=
    {| finding_id := "a" +:+ Js.dq +:+ n; finding_type := "process";
       finding_control := "Commit signing"; finding_status := "FAIL";
       finding_evidence := None |} in
  let fs := [quoted "1"; quoted "2"] in
  NoDup (finding_id <$> fs)
  /\ Forall (fun finding => finding_status finding = "FAIL") fs
  /\ exists kids1 kids2,
      Html.parse Html.Row (source (row_cells (quoted "1"))) = Some kids1
      /\ Html.parse Html.Row (source (row_cells (quoted "2"))) = Some kids2
      /\ let rows := [Dom.Elem "tr" [] EmptyString kids1;
                      Dom.Elem "tr" [] EmptyString kids2] in
         let w1 := on_document (with_findings_tbody (fun _ => rows)) (blank_world None) in
         let w2 := world_after (clicks 1 (toggle_of_row 1)) w1 in
         Dom.id_of <$> Dom.node_at rows (evidence_of_row 0) = Some "details-a"
         /\ Dom.id_of <$> Dom.node_at rows (evidence_of_row 1) = Some "details-a"
         /\ completion_of (clicks 1 (toggle_of_row 1)) w1 = Normal tt
         /\ Dom.style_display <$> Dom.node_at (findings_tbody (document w2))
                                               (evidence_of_row 0)
            = Some "block"
         /\ Dom.style_display <$> Dom.node_at (findings_tbody (document w2))
                                               (evidence_of_row 1)
            = Some EmptyString
         /\ Dom.style_display <$> Dom.node_at (findings_tbody (document w2))
                                               (evidence_of_row 1)
            <> Some "block"
         /\ Dom.textContent <$> Dom.node_at (findings_tbody (document w2))
                                             (toggle_of_row 1)
            = Some "Hide Evidence".
Proof.
  intros quoted fs.
  split; [apply (bool_decide_unpack _); vm_compute; exact I|].
  split; [repeat constructor|].
  do 2 eexists. split; [vm_compute; reflexivity|]. split; [vm_compute; reflexivity|].
  repeat split. discriminate.
Qed.

(** C8, amended: on a page whose table was empty, after a payload whose
    finding ids are distinct and whose strings hold no markup
    ([plain_finding]) has been rendered, the rows are those the parser
    builds, and [n] clicks on the toggle of a FAIL finding complete
    normally and act on the evidence block [details-<id>] of that finding
    alone: for odd [n] the block is displayed ([block]) and the toggle
    reads Hide Evidence; for even [n] the block is collapsed (inline
    display unset before the first click, [none] afterwards) and the
    toggle reads Show Evidence.  The other rows stay as rendered. *)
Theorem toggleEvidence_parity (md : Metadata) (st : Stats) (fs : list Finding)
    (w : World) (i : nat) (finding : Finding) (n : nat) :
  findings_tbody (document w) = [] ->
  NoDup (finding_id <$> fs) ->
  forallb plain_finding fs = true ->
  fs !! i = Some finding ->
  finding_status finding = "FAIL" ->
  let w1 := world_after (renderReport (payload md st fs)) w in
  let wn := world_after (clicks n (toggle_of_row i)) w1 in
  Forall2 row_as_parsed fs (findings_tbody (document w1))
  /\ completion_of (clicks n (toggle_of_row i)) w1 = Normal tt
  /\ exists toggle block,
      Dom.node_at (findings_tbody (document wn)) (toggle_of_row i) = Some toggle
      /\ Dom.node_at (findings_tbody (document wn)) (evidence_of_row i) = Some block
      /\ Dom.id_of block = "details-" +:+ finding_id finding
      /\ (Nat.odd n = true ->
          Dom.style_display block = "block"
          /\ Dom.textContent toggle = "Hide Evidence")
      /\ (Nat.even n = true ->
          (Dom.style_display block = "none"
           \/ n = 0%nat /\ Dom.style_display block = EmptyString)
          /\ Dom.textContent toggle = "Show Evidence")
      /\ (forall j : nat,
            j <> i ->
            findings_tbody (document wn) !! j = findings_tbody (document w1) !! j).
Proof.
  intros Hempty Hnd Hplain Hi Hf w1 wn.
  assert (Hlen : (i < length (table_rows fs))%nat).
  { rewrite table_rows_length. by eapply lookup_lt_Some. }
  assert (H1 : findings_tbody (document w1) = table_rows fs).
  { unfold w1. rewrite world_after_payload. unfold rendered. page_simpl.
    by rewrite Hempty. }
  split; [rewrite H1; by apply table_rows_as_parsed|].
  assert (Hrows : findings_tbody (document w1)
                  = <[i := row_in_state finding (display_after 0) (label_after 0)]>
                      (table_rows fs)).
  { rewrite H1. symmetry. apply list_insert_id.
    rewrite (table_rows_lookup _ _ _ Hi). f_equal. by apply failed_row_fresh. }
  pose proof (clicks_run fs i finding Hnd Hi Hf n 0%nat w1 Hrows) as Hrun.
  cbn [Nat.add] in Hrun.
  unfold completion_of, wn, world_after. rewrite Hrun. cbn [fst snd].
  split; [reflexivity|].
  assert (Hn : findings_tbody
                 (document
                    (on_document
                       (with_findings_tbody
                          (fun _ => <[i := row_in_state finding (display_after n)
                                                        (label_after n)]>
                                      (table_rows fs))) w1))
               = <[i := row_in_state finding (display_after n) (label_after n)]>
                   (table_rows fs)) by reflexivity.
  rewrite Hn.
  assert (Hrow : (<[i := row_in_state finding (display_after n) (label_after n)]>
                    (table_rows fs)) !! i
                 = Some (row_in_state finding (display_after n) (label_after n)))
    by (by apply list_lookup_insert_eq).
  destruct (toggle_then_evidence _ _ _ _ _ Hf Hrow) as (_ & Htoggle & Hblock).
  do 2 eexists. split; [exact Htoggle|]. split; [exact Hblock|].
  split; [reflexivity|].
  cbn [Dom.style_display Dom.textContent]. rewrite append_empty_r.
  unfold display_after, label_after. rewrite <- Nat.negb_odd.
  split; [|split].
  - intros Ho. rewrite Ho. destruct n; [discriminate Ho|]. by split.
  - intros He. apply negb_true_iff in He. rewrite He.
    destruct n; split; auto.
  - intros j Hj. rewrite H1. by apply list_lookup_insert_ne.
Qed.

(** ** Markup and trees agree *)

Ltac same_markup :=
  cbv [Dom.markup_of_nodes Dom.markup_of Dom.attrs_markup foldr fst snd nodes source app];
  rewrite ?append_empty_r, ?append_assoc; reflexivity.

Lemma status_badge_markup (overallStatus : string) :
  Dom.markup_of_nodes (nodes (status_badge overallStatus)) = source (status_badge overallStatus).
Proof. unfold status_badge. same_markup. Qed.

Lemma evidence_controls_markup (finding : Finding) :
  Dom.markup_of_nodes (nodes (evidence_controls finding))
  = source (evidence_controls finding).
Proof. unfold evidence_controls. same_markup. Qed.

Lemma not_applicable_markup :
  Dom.markup_of_nodes (nodes not_applicable) = source not_applicable.
Proof. reflexivity. Qed.

(** Every row is written exactly as the template literal of lines 36-51
    spells it. *)
Lemma row_cells_markup (finding : Finding) :
  Dom.markup_of_nodes (nodes (row_cells finding)) = source (row_cells finding).
Proof.
  unfold row_cells.
  destruct (String.eqb (finding_status finding) "FAIL");
    destruct (String.eqb (finding_status finding) "PASS");
    unfold evidence_controls, not_applicable; same_markup.
Qed.

Lemma list_item_markup (controlId text : string) :
  Dom.markup_of_nodes (nodes (list_item controlId text)) = source (list_item controlId text).
Proof. unfold list_item. same_markup. Qed.

(** The evidence of the scenario, pretty-printed. *)
Lemma stringify_scenario_evidence :
  Json.stringify (finding_evidence finding_CC15)
  = Js.VString ("{" +:+ Js.nl +:+ "  " +:+ Js.dq +:+ "file" +:+ Js.dq +:+ ": "
                  +:+ Js.dq +:+ "a.go" +:+ Js.dq +:+ Js.nl +:+ "}").
Proof. reflexivity. Qed.

(** ** The claims on the scenario of the test plan *)

(** C9 on the scenario: both statuses are PASS or FAIL, and two rows are
    built. *)
Lemma table_builder_rows_witness :
  Forall (fun finding =>
            finding_status finding = "PASS" \/ finding_status finding = "FAIL")
         scenario_findings
  /\ exists built,
      findings_tbody
        (document
           (world_after
              (renderReport (payload scenario_metadata scenario_stats scenario_findings))
              (blank_world None)))
      = findings_tbody (document (blank_world None)) ++ built
      /\ length built = length scenario_findings.
Proof.
  assert (Hst : Forall (fun finding =>
                          finding_status finding = "PASS"
                          \/ finding_status finding = "FAIL") scenario_findings).
  { apply (bool_decide_unpack _). vm_compute. exact I. }
  split; [exact Hst|].
  destruct (table_builder_rows scenario_metadata scenario_stats scenario_findings
              (blank_world None) Hst eq_refl) as (built & Hrows & Hlen & _).
  exists built. split; [exact Hrows | exact Hlen].
Defined.

(** C8 on the scenario: three clicks on the toggle of CC1.5 leave its
    evidence displayed and the toggle reading Hide Evidence. *)
Lemma toggleEvidence_parity_witness :
  let w1 := world_after
              (renderReport (payload scenario_metadata scenario_stats scenario_findings))
              (blank_world None) in
  let w3 := world_after (clicks 3 (toggle_of_row 0)) w1 in
  completion_of (clicks 3 (toggle_of_row 0)) w1 = Normal tt
  /\ exists toggle block,
      Dom.node_at (findings_tbody (document w3)) (toggle_of_row 0) = Some toggle
      /\ Dom.node_at (findings_tbody (document w3)) (evidence_of_row 0) = Some block
      /\ Dom.style_display block = "block"
      /\ Dom.textContent toggle = "Hide Evidence".
Proof.
  intros w1 w3.
  assert (Hnd : NoDup (finding_id <$> scenario_findings)).
  { apply (bool_decide_unpack _). vm_compute. exact I. }
  destruct (toggleEvidence_parity scenario_metadata scenario_stats scenario_findings
              (blank_world None) 0 finding_CC15 3 eq_refl Hnd eq_refl eq_refl eq_refl)
    as (_ & Hdone & toggle & block & Htoggle & Hblock & _ & Hodd & _).
  split; [exact Hdone|].
  exists toggle, block.
  destruct (Hodd eq_refl) as [Hd Hl].
  repeat split; assumption.
Defined.


(** A payload without [stats] on a blank page: [framework-value] is
    written, the other fields are not, and the call throws. *)
Lemma missing_stats_on_blank_page :
  let data := Object {| metadata := Some scenario_metadata; stats := None;
                        findings := Some scenario_findings |} in
  completion_of (renderReport data) (blank_world None) = Throw TypeError
  /\ fields (document (world_after (renderReport data) (blank_world None)))
     = {[ "framework-value" := "SOC2" ]}
  /\ document (world_after (renderReport data) (blank_world None))
     <> document (blank_world None).
Proof.
  repeat split. intros H. apply (f_equal fields) in H.
  apply (f_equal (lookup "framework-value")) in H. discriminate H.
Qed.

(** ** When rendering completes, and what it writes *)

(** [renderReport] throws exactly on a truthy argument that lacks one of
    its three properties, and then the error is a TypeError; in every
    other case it completes normally. *)
Theorem renderReport_throws_iff (data : input) (w : World) :
  (completion_of (renderReport data) w = Throw TypeError
   <-> truthy data = true
       /\ (data_metadata data = None \/ data_stats data = None
           \/ data_findings data = None))
  /\ (completion_of (renderReport data) w = Normal tt
      \/ completion_of (renderReport data) w = Throw TypeError).
Proof.
  destruct data as [| |[[md|] [st|] [fs|]]].
  1, 2: split; [split; [discriminate|intros [H _]; discriminate H]|left; reflexivity].
  - change (Object _) with (payload md st fs). unfold completion_of.
    rewrite renderReport_payload. cbn [snd].
    split; [|by left]. split; [discriminate|].
    intros [_ [H|[H|H]]]; discriminate H.
  - split; [|by right]. split; [|reflexivity]. intros _. split; auto.
  - split; [|by right]. split; [|reflexivity]. intros _. split; auto.
  - split; [|by right]. split; [|reflexivity]. intros _. split; auto.
  - split; [|by right]. split; [|reflexivity]. intros _. split; auto.
  - split; [|by right]. split; [|reflexivity]. intros _. split; auto.
  - split; [|by right]. split; [|reflexivity]. intros _. split; auto.
  - split; [|by right]. split; [|reflexivity]. intros _. split; auto.
Qed.



(** A payload without [findings]: the summary and the badge are written
    as for a full payload, then the call throws; table, chart surface,
    recommendations and console are as before. *)
Theorem renderReport_missing_findings (md : Metadata) (st : Stats) (fs : list Finding)
    (w : World) :
  let w' := world_after (renderReport (payload_without_findings md st)) w in
  let full := world_after (renderReport (payload md st fs)) w in
  completion_of (renderReport (payload_without_findings md st)) w = Throw TypeError
  /\ fields (document w') = fields (document full)
  /\ status_value (document w') = status_value (document full)
  /\ findings_tbody (document w') = findings_tbody (document w)
  /\ resultsChart (document w') = resultsChart (document w)
  /\ recommendations_section_placeholder (document w')
     = recommendations_section_placeholder (document w)
  /\ recommendations_list (document w') = recommendations_list (document w)
  /\ console w' = console w.
Proof.
  intros w' full. unfold full. rewrite world_after_payload. repeat split.
Qed.

(** ** Rendering again *)

Lemma lookup_insert_both (m1 m2 : gmap string string) (k i : string) (v : string) :
  (k <> i -> m1 !! i = m2 !! i) ->
  <[k := v]> m1 !! i = <[k := v]> m2 !! i.
Proof.
  intros H. destruct (decide (k = i)) as [->|Hne].
  - by rewrite !lookup_insert_eq.
  - rewrite !lookup_insert_ne by done. by apply H.
Qed.

(** After two renderings the display fields, the badge and the visibility
    of the recommendations panel are those of the second payload alone;
    so is the recommendations list when the second payload has a FAIL
    finding. *)
Theorem renderReport_latest_summary (md1 md2 : Metadata) (st1 st2 : Stats)
    (fs1 fs2 : list Finding) (w : World) :
  let both := world_after (renderReport (payload md1 st1 fs1);;
                           renderReport (payload md2 st2 fs2)) w in
  let last := world_after (renderReport (payload md2 st2 fs2)) w in
  fields (document both) = fields (document last)
  /\ status_value (document both) = status_value (document last)
  /\ recommendations_section_placeholder (document both)
     = recommendations_section_placeholder (document last)
  /\ (List.filter is_FAIL fs2 <> [] ->
      recommendations_list (document both) = recommendations_list (document last)).
Proof.
  intros both last. unfold both, last, world_after.
  rewrite run_bind, !renderReport_payload. cbn [fst]. unfold rendered. page_simpl.
  split; [|split; [reflexivity|split; [reflexivity|]]].
  - apply map_eq. intros i.
    do 7 (apply lookup_insert_both; intros ?).
    by rewrite !lookup_insert_ne.
  - intros H. destruct (List.filter is_FAIL fs2); [by destruct H|reflexivity].
Qed.

(** On the scenario, which has a FAIL finding, rendered after a payload
    with other counts. *)
Lemma renderReport_latest_summary_witness :
  let first := payload scenario_metadata {| pass := 7; fail := 0 |} [finding_CC61] in
  let second := payload scenario_metadata scenario_stats scenario_findings in
  recommendations_list
    (document (world_after (renderReport first;; renderReport second) (blank_world None)))
  = recommendations_list (document (world_after (renderReport second) (blank_world None))).
Proof.
  intros first second.
  refine (proj2 (proj2 (proj2
            (renderReport_latest_summary scenario_metadata scenario_metadata
               {| pass := 7; fail := 0 |} scenario_stats [finding_CC61] scenario_findings
               (blank_world None)))) _).
  discriminate.
Defined.

(** A payload without FAIL findings, rendered on a page that already
    lists the recommendation of the scenario. *)
Lemma renderReport_keeps_stale_recommendations_witness :
  let w1 := world_after
              (renderReport (payload scenario_metadata scenario_stats scenario_findings))
              (blank_world None) in
  List.filter is_FAIL [finding_CC61] = []
  /\ recommendations_list
       (document (world_after
                    (renderReport (payload scenario_metadata {| pass := 1; fail := 0 |}
                                           [finding_CC61])) w1))
     = recommendations_list (document w1).
Proof.
  intros w1. split; [reflexivity|].
  exact (renderReport_keeps_stale_recommendations scenario_metadata
           {| pass := 1; fail := 0 |} [finding_CC61] w1 eq_refl).
Defined.

(** The counts and the findings are never compared: display fields, badge
    and chart depend on [metadata] and [stats] only, table rows,
    recommendations and panel visibility on [findings] only. *)
Theorem renderReport_stats_and_findings_apart (md md' : Metadata) (st st' : Stats)
    (fs fs' : list Finding) (w : World) :
  let after md st fs := document (world_after (renderReport (payload md st fs)) w) in
  (fields (after md st fs) = fields (after md st fs')
   /\ status_value (after md st fs) = status_value (after md st fs')
   /\ resultsChart (after md st fs) = resultsChart (after md st fs'))
  /\ (findings_tbody (after md st fs) = findings_tbody (after md' st' fs)
      /\ recommendations_list (after md st fs) = recommendations_list (after md' st' fs)
      /\ recommendations_section_placeholder (after md st fs)
         = recommendations_section_placeholder (after md' st' fs)).
Proof. intros after. unfold after. rewrite !world_after_payload. repeat split. Qed.

(** With a zero total the chart drawer is skipped, so whatever an earlier
    rendering drew stays on the surface. *)
Theorem renderReport_zero_total_keeps_chart (md : Metadata) (st : Stats)
    (fs : list Finding) (w : World) :
  pass st + fail st = 0 ->
  resultsChart (document (world_after (renderReport (payload md st fs)) w))
  = resultsChart (document w).
Proof.
  intros H. rewrite world_after_payload. unfold rendered. page_simpl.
  unfold paint. rewrite H. by destruct (resultsChart (document w)).
Qed.

(** Two renderings with non-zero totals leave the operations of both
    charts on the surface, the older first: the surface is never
    cleared. *)
Theorem renderReport_twice_chart (md1 md2 : Metadata) (st1 st2 : Stats)
    (fs1 fs2 : list Finding) (w : World) (c : Canvas) :
  resultsChart (document w) = Some c ->
  pass st1 + fail st1 <> 0 ->
  pass st2 + fail st2 <> 0 ->
  let both := world_after (renderReport (payload md1 st1 fs1);;
                           renderReport (payload md2 st2 fs2)) w in
  resultsChart (document both)
  = Some {| width := width c; height := height c;
            drawn := drawn c ++ chart_ops c (pass st1) (fail st1)
                             ++ chart_ops c (pass st2) (fail st2) |}
  /\ length (chart_ops c (pass st1) (fail st1)) = 12%nat
  /\ length (chart_ops c (pass st2) (fail st2)) = 12%nat.
Proof.
  intros Hc H1 H2 both. unfold both, world_after.
  rewrite run_bind, !renderReport_payload. cbn [fst]. unfold rendered. page_simpl.
  rewrite Hc. unfold paint.
  apply Z.eqb_neq in H1, H2. rewrite H1. cbn [width height drawn]. rewrite H2.
  split; [|split; reflexivity].
  by rewrite <- app_assoc.
Qed.

(** ** Rows of other statuses *)

(** A finding whose status is neither PASS nor FAIL and whose strings
    hold no markup ([plain_finding]) gets a row in the fail style that
    shows the status as it is, an actions cell with the marker N/A and no
    evidence block, and no recommendation: alone in a payload it leaves
    the panel hidden.  The children of the row are those the parser
    builds from the template literal. *)
Theorem other_status_row (md : Metadata) (st : Stats) (finding : Finding) (w : World) :
  finding_status finding <> "PASS" ->
  finding_status finding <> "FAIL" ->
  plain_finding finding = true ->
  let w' := world_after (renderReport (payload md st [finding])) w in
  recommendations_section_placeholder (document w') = "none"
  /\ exists row c_id c_type c_control c_status actions badge marker,
      findings_tbody (document w') = findings_tbody (document w) ++ [row]
      /\ row_as_parsed finding row
      /\ Dom.children row = [c_id; c_type; c_control; c_status; actions]
      /\ Dom.children c_status = [badge]
      /\ Dom.className badge = "status-fail"
      /\ Dom.textContent badge = finding_status finding
      /\ Dom.children actions = [marker]
      /\ Dom.textContent marker = "N/A"
      /\ Forall (fun n => Dom.className n <> "evidence-details"
                          /\ Dom.id_of n = EmptyString) (descendants row).
Proof.
  intros Hp Hf Hplain w'. unfold w'. rewrite world_after_payload. unfold rendered.
  page_simpl.
  pose proof (row_cells_parse finding Hplain) as Hparsed.
  apply String.eqb_neq in Hp, Hf.
  unfold is_FAIL, table_rows. cbn [List.filter fmap list_fmap]. rewrite Hf.
  split; [reflexivity|].
  unfold new_row, row_cells in *. rewrite Hp, Hf in *.
  do 8 eexists. split; [reflexivity|]. split; [exact Hparsed|].
  do 3 (split; [reflexivity|]).
  split; [cbn [Dom.textContent]; by rewrite append_empty_r|].
  do 2 (split; [reflexivity|]).
  cbn [descendants app nodes not_applicable]. repeat constructor; discriminate.
Qed.

(** A finding reported as WARN. *)
Lemma other_status_row_witness :
  let warned := {| finding_id := "CC7.2"; finding_type := "code";
                   finding_control := "Logging"; finding_status := "WARN";
                   finding_evidence := None |} in
  recommendations_section_placeholder
    (document (world_after (renderReport (payload scenario_metadata scenario_stats [warned]))
                           (blank_world None)))
  = "none".
Proof.
  intros warned.
  refine (proj1 (other_status_row scenario_metadata scenario_stats warned
                   (blank_world None) _ _ eq_refl)); discriminate.
Defined.

(** ** More on the chart *)

(** When nothing failed the pass sector is the whole disc and the fail
    sector is empty; when nothing passed it is the other way round. *)
Theorem chart_of_one_kind (n : Z) (w : World) (c : Canvas) :
  resultsChart (document w) = Some c ->
  n <> 0 ->
  let x := (IZR (width c) / 2)%R in
  let y := (IZR (height c) / 2)%R in
  let r := (Rmin x y - 10)%R in
  let sectors (a b : R) :=
    Some {| width := width c; height := height c;
            drawn := drawn c ++
              [ BeginPath; MoveTo x y; Arc x y r 0%R a;
                ClosePath; FillStyle "#073b0f"; Fill;
                BeginPath; MoveTo x y; Arc x y r a b;
                ClosePath; FillStyle "#8c1515"; Fill ] |} in
  resultsChart (document (world_after (drawSimpleChart n 0) w))
    = sectors (2 * PI)%R (2 * PI)%R
  /\ resultsChart (document (world_after (drawSimpleChart 0 n) w))
    = sectors 0%R (2 * PI)%R.
Proof.
  intros Hc Hn x y r sectors. unfold world_after. rewrite !drawSimpleChart_paints.
  cbn [fst]. destruct w as [[fl sv tb ch pd rl] co]. page_simpl.
  cbn [document resultsChart] in Hc. subst ch. unfold paint.
  rewrite Z.add_0_r, Z.add_0_l. apply Z.eqb_neq in Hn as Hn'. rewrite Hn'.
  unfold chart_ops, sectors. rewrite Z.add_0_r, Z.add_0_l. fold x y r.
  assert (Hz : IZR n <> 0%R) by (by apply not_0_IZR).
  split; repeat f_equal; field; exact Hz.
Qed.

(** All seven findings passed, on a blank surface of 200 by 200. *)
Lemma chart_of_one_kind_witness :
  exists x y r,
    resultsChart
      (document (world_after (drawSimpleChart 7 0)
                   (blank_world (Some {| width := 200; height := 200; drawn := [] |}))))
    = Some {| width := 200; height := 200;
              drawn := [ BeginPath; MoveTo x y; Arc x y r 0%R (2 * PI)%R;
                         ClosePath; FillStyle "#073b0f"; Fill;
                         BeginPath; MoveTo x y; Arc x y r (2 * PI)%R (2 * PI)%R;
                         ClosePath; FillStyle "#8c1515"; Fill ] |}.
Proof.
  do 3 eexists.
  refine (proj1 (chart_of_one_kind 7
                   (blank_world (Some {| width := 200; height := 200; drawn := [] |}))
                   {| width := 200; height := 200; drawn := [] |} _ _));
    [reflexivity | discriminate].
Defined.

(** For counts that are not negative the boundary between the two
    sectors lies within the revolution. *)
Theorem chart_boundary_in_revolution (passCount failCount : Z) (w : World) (c : Canvas) :
  resultsChart (document w) = Some c ->
  0 <= passCount -> 0 <= failCount -> passCount + failCount <> 0 ->
  exists boundary x y r,
    resultsChart (document (world_after (drawSimpleChart passCount failCount) w))
    = Some {| width := width c; height := height c;
              drawn := drawn c ++
                [ BeginPath; MoveTo x y; Arc x y r 0%R boundary;
                  ClosePath; FillStyle "#073b0f"; Fill;
                  BeginPath; MoveTo x y; Arc x y r boundary (2 * PI)%R;
                  ClosePath; FillStyle "#8c1515"; Fill ] |}
    /\ (0 <= boundary <= 2 * PI)%R.
Proof.
  intros Hc Hp Hf Hne.
  exists (2 * PI * (IZR passCount / IZR (passCount + failCount)))%R.
  do 3 eexists. unfold world_after. rewrite drawSimpleChart_paints. cbn [fst].
  destruct w as [[fl sv tb ch pd rl] co]. page_simpl.
  cbn [document resultsChart] in Hc. subst ch.
  unfold paint. apply Z.eqb_neq in Hne as Hne'. rewrite Hne'.
  unfold chart_ops. split.
  - repeat f_equal; [ring|ring|].
    rewrite <- (fractions_fill_the_turn passCount failCount Hne). ring.
  - assert (Ht : (0 < IZR (passCount + failCount))%R) by (apply IZR_lt; lia).
    assert (Hx : (0 <= IZR passCount)%R) by (by apply IZR_le).
    assert (Hxt : (IZR passCount <= IZR (passCount + failCount))%R)
      by (apply IZR_le; lia).
    pose proof PI_RGT_0 as Hpi.
    assert (H01 : (0 <= IZR passCount / IZR (passCount + failCount) <= 1)%R).
    { split.
      - apply Rmult_le_pos; [exact Hx|]. left. by apply Rinv_0_lt_compat.
      - apply (Rmult_le_reg_r (IZR (passCount + failCount))); [exact Ht|].
        unfold Rdiv. rewrite Rmult_assoc, Rinv_l, Rmult_1_r, Rmult_1_l; [exact Hxt|].
        lra. }
    destruct H01 as [H0 H1]. split.
    + apply Rmult_le_pos; [lra|exact H0].
    + rewrite <- (Rmult_1_r (2 * PI)) at 2. apply Rmult_le_compat_l; [lra|exact H1].
Qed.

(** Two passed and one failed, on a blank surface of 200 by 200. *)
Lemma chart_boundary_in_revolution_witness :
  let c := {| width := 200; height := 200; drawn := [] |} in
  exists boundary x y r,
    resultsChart (document (world_after (drawSimpleChart 2 1) (blank_world (Some c))))
    = Some {| width := 200; height := 200;
              drawn := [ BeginPath; MoveTo x y; Arc x y r 0%R boundary;
                         ClosePath; FillStyle "#073b0f"; Fill;
                         BeginPath; MoveTo x y; Arc x y r boundary (2 * PI)%R;
                         ClosePath; FillStyle "#8c1515"; Fill ] |}
    /\ (0 <= boundary <= 2 * PI)%R.
Proof.
  intros c.
  refine (chart_boundary_in_revolution 2 1 (blank_world (Some c)) c eq_refl _ _ _); lia.
Defined.

(** ** The toggle on any table the script can produce *)

Lemma table_in_state_lookup (ss : list row_state) (i : nat) :
  table_in_state ss !! i = row_of_state <$> ss !! i.
Proof. unfold table_in_state. apply list_lookup_fmap. Qed.

Lemma table_rows_as_rendered (fs : list Finding) :
  table_rows fs = table_in_state (as_rendered <$> fs).
Proof.
  unfold table_rows, table_in_state. rewrite <- list_fmap_compose.
  apply list_fmap_ext. intros _ g _. unfold compose, row_of_state, as_rendered.
  cbn [state_finding state_display state_label].
  destruct (is_FAIL g) eqn:E; [|reflexivity].
  apply failed_row_fresh. by apply is_FAIL_true.
Qed.

Lemma find_in_row_of_state (i : string) (s : row_state) :
  Dom.find_in_node i (row_of_state s)
  = if owns_block i s then Some [9; 3]%nat else None.
Proof.
  unfold row_of_state, owns_block. destruct (is_FAIL (state_finding s)) eqn:E.
  - rewrite failed_row_in_state by (by apply is_FAIL_true).
    cbn [Dom.find_in_node Dom.has_id Dom.getAttribute String.eqb Ascii.eqb Bool.eqb andb].
    by destruct (String.eqb _ i).
  - rewrite find_in_fresh_row, E. reflexivity.
Qed.

Lemma find_in_table (i : string) (ss : list row_state) (k : nat) :
  Dom.find_in_nodes i (table_in_state ss) k
  = evidence_of_row <$> first_owner i ss k.
Proof.
  revert k. induction ss as [|s ss IH]; intros k; [reflexivity|].
  unfold table_in_state in *. cbn [fmap list_fmap Dom.find_in_nodes first_owner].
  rewrite find_in_row_of_state. destruct (owns_block i s); [reflexivity|apply IH].
Qed.

Lemma first_owner_spec (i : string) (ss : list row_state) (k j : nat) :
  first_owner i ss k = Some j <->
  exists s, (k <= j)%nat /\ ss !! (j - k)%nat = Some s /\ owns_block i s = true
            /\ forall (m : nat) (s' : row_state),
                 (m < j - k)%nat -> ss !! m = Some s' -> owns_block i s' = false.
Proof.
  revert k. induction ss as [|s ss IH]; intros k; cbn [first_owner].
  - split; [discriminate|]. intros (s & _ & H & _). discriminate H.
  - destruct (owns_block i s) eqn:E.
    + split.
      * intros [= <-]. exists s. rewrite Nat.sub_diag.
        repeat split; [lia|exact E|]. intros m s' Hm. lia.
      * intros (s0 & Hk & Hj & Ho & Hfirst).
        destruct (j - k)%nat as [|n] eqn:Hn; [f_equal; lia|].
        exfalso. specialize (Hfirst 0%nat s (Nat.lt_0_succ n) eq_refl). congruence.
    + rewrite IH. split.
      * intros (s0 & Hk & Hj & Ho & Hfirst). exists s0.
        replace (j - k)%nat with (S (j - S k)) by lia.
        repeat split; [lia|exact Hj|exact Ho|].
        intros [|m] s' Hm Hs'; [by injection Hs' as <-|].
        apply (Hfirst m); [lia|exact Hs'].
      * intros (s0 & Hk & Hj & Ho & Hfirst).
        destruct (j - k)%nat as [|n] eqn:Hn.
        { injection Hj as <-. congruence. }
        exists s0. replace (j - S k)%nat with n by lia.
        repeat split; [lia|exact Hj|exact Ho|].
        intros m s' Hm Hs'. apply (Hfirst (S m)); [lia|exact Hs'].
Qed.

Lemma alter_fmap_at {A B} (f : B -> B) (g : A -> B) (h : A -> A) (l : list A)
    (i : nat) (x : A) :
  l !! i = Some x -> f (g x) = g (h x) ->
  alter f i (g <$> l) = g <$> alter h i l.
Proof.
  revert i. induction l as [|y l IH]; intros [|i] Hx Hfg; try discriminate Hx.
  - injection Hx as ->. cbn. by rewrite Hfg.
  - cbn. f_equal. by apply IH.
Qed.

Lemma set_display_in_table (ss : list row_state) (j : nat) (s : row_state) (d : string) :
  ss !! j = Some s -> is_FAIL (state_finding s) = true ->
  Dom.modify_at (Dom.set_display d) (evidence_of_row j) (table_in_state ss)
  = table_in_state (alter (with_display d) j ss).
Proof.
  intros Hs Hf. unfold evidence_of_row, table_in_state. cbn [Dom.modify_at].
  apply (alter_fmap_at _ _ _ _ _ s Hs).
  unfold row_of_state, with_display. cbn [state_finding state_display state_label].
  rewrite Hf. rewrite !failed_row_in_state by (by apply is_FAIL_true). reflexivity.
Qed.

Lemma set_label_in_table (ss : list row_state) (i : nat) (s : row_state) (label : string) :
  ss !! i = Some s -> is_FAIL (state_finding s) = true ->
  Dom.modify_at (Dom.set_textContent label) (toggle_of_row i) (table_in_state ss)
  = table_in_state (alter (with_label label) i ss).
Proof.
  intros Hs Hf. unfold toggle_of_row, table_in_state. cbn [Dom.modify_at].
  apply (alter_fmap_at _ _ _ _ _ s Hs).
  unfold row_of_state, with_label. cbn [state_finding state_display state_label].
  rewrite Hf. rewrite !failed_row_in_state by (by apply is_FAIL_true). reflexivity.
Qed.

Lemma failed_row_of_state (ss : list row_state) (i : nat) (s : row_state) :
  ss !! i = Some s -> is_FAIL (state_finding s) = true ->
  table_in_state ss !! i
  = Some (row_in_state (state_finding s) (state_display s) (state_label s)).
Proof.
  intros Hs Hf. rewrite table_in_state_lookup, Hs. cbn [fmap option_fmap option_map].
  unfold row_of_state. by rewrite Hf.
Qed.

(** One click on the toggle of row [i] of a table in state [ss]: the
    block that changes is the one of the first row [j] holding the
    identifier of row [i]; the label that changes is that of row [i]. *)
Lemma toggleEvidence_in_table (ss : list row_state) (i j : nat) (si sj : row_state)
    (w : World) :
  findings_tbody (document w) = table_in_state ss ->
  ss !! i = Some si -> is_FAIL (state_finding si) = true ->
  first_owner ("details-" +:+ finding_id (state_finding si)) ss 0 = Some j ->
  ss !! j = Some sj ->
  toggleEvidence (toggle_of_row i) w
  = (on_document
       (with_findings_tbody
          (fun _ =>
             table_in_state
               (alter (with_label (if is_collapsed (state_display sj)
                                   then "Hide Evidence" else "Show Evidence")) i
                  (alter (with_display (if is_collapsed (state_display sj)
                                        then "block" else "none")) j ss)))) w,
     Normal tt).
Proof.
  intros Hrows Hi Hfi Hj Hsj.
  assert (Hfj : is_FAIL (state_finding sj) = true).
  { apply first_owner_spec in Hj as (s & _ & Hs & Ho & _).
    rewrite Nat.sub_0_r, Hsj in Hs. injection Hs as <-.
    unfold owns_block in Ho. by apply andb_true_iff in Ho as [? _]. }
  pose proof (failed_row_of_state _ _ _ Hi Hfi) as Hrowi.
  pose proof (failed_row_of_state _ _ _ Hsj Hfj) as Hrowj.
  destruct (toggle_then_evidence _ _ _ _ _ (proj1 (is_FAIL_true _) Hfi) Hrowi)
    as (Hnext & _ & Hblocki).
  destruct (toggle_then_evidence _ _ _ _ _ (proj1 (is_FAIL_true _) Hfj) Hrowj)
    as (_ & _ & Hblockj).
  destruct w as [[fl sv tb ch pd rl] co]. cbn [document findings_tbody] in Hrows.
  subst tb.
  unfold toggleEvidence. cbn [document findings_tbody]. rewrite Hnext.
  cbn [mbind option_bind]. rewrite Hblocki.
  rewrite run_bind. cbn [deref mret JS_ret Dom.id_of Dom.getAttribute String.eqb
                         Ascii.eqb Bool.eqb from_option Datatypes.id].
  unfold Dom.getElementById.
  change (String.eqb ("details-" +:+ finding_id (state_finding si)) EmptyString)
    with false. cbv iota.
  rewrite find_in_table, Hj. cbn [fmap option_fmap option_map].
  rewrite run_bind. cbn [deref mret JS_ret]. rewrite Hblockj.
  cbn [fmap option_fmap option_map Dom.style_display]. rewrite run_bind.
  cbn [deref mret JS_ret]. fold (is_collapsed (state_display sj)).
  assert (Hset : forall d label,
    Dom.modify_at (Dom.set_textContent label) (toggle_of_row i)
      (Dom.modify_at (Dom.set_display d) (evidence_of_row j) (table_in_state ss))
    = table_in_state (alter (with_label label) i (alter (with_display d) j ss))).
  { intros d label. rewrite (set_display_in_table _ _ _ _ Hsj Hfj).
    destruct (decide (j = i)) as [->|Hne].
    - apply (set_label_in_table _ _ (with_display d si)).
      + rewrite list_lookup_alter_eq, Hi. reflexivity.
      + exact Hfi.
    - apply (set_label_in_table _ _ si); [|exact Hfi].
      by rewrite list_lookup_alter_ne. }
  destruct (is_collapsed (state_display sj)); rewrite run_bind;
    unfold mutate, on_document, with_findings_tbody; page_simpl; by rewrite Hset.
Qed.

Lemma no_sibling_without_block (ss : list row_state) (i : nat) :
  ss !! i = None
  \/ (exists s, ss !! i = Some s /\ is_FAIL (state_finding s) = false) ->
  Dom.nextElementSibling (table_in_state ss) (toggle_of_row i) = None.
Proof.
  intros Hcase. unfold Dom.nextElementSibling, toggle_of_row. cbn [Dom.siblings_at].
  rewrite table_in_state_lookup.
  destruct Hcase as [->|(s & -> & Hf)]; [reflexivity|].
  cbn [fmap option_fmap option_map]. unfold row_of_state. rewrite Hf.
  unfold new_row, row_cells. unfold is_FAIL in Hf. rewrite Hf.
  by destruct (String.eqb (finding_status (state_finding s)) "PASS").
Qed.

Lemma first_owner_exists (i : string) (ss : list row_state) (k n : nat) (s : row_state) :
  ss !! n = Some s -> owns_block i s = true ->
  exists j sj, first_owner i ss k = Some (k + j)%nat /\ ss !! j = Some sj /\ (j <= n)%nat.
Proof.
  revert k n. induction ss as [|x ss IH]; intros k n Hn Ho; [discriminate Hn|].
  cbn [first_owner]. destruct (owns_block i x) eqn:E.
  - exists 0%nat, x. rewrite Nat.add_0_r. repeat split; lia.
  - destruct n as [|n]; [injection Hn as ->; congruence|].
    destruct (IH (S k) n Hn Ho) as (j & sj & Hj & Hsj & Hle).
    exists (S j), sj. rewrite Hj. repeat split; [f_equal; lia|exact Hsj|lia].
Qed.

Lemma tbody_after_set (rows : list Dom.node) (w : World) :
  findings_tbody (document (on_document (with_findings_tbody (fun _ => rows)) w)) = rows.
Proof. reflexivity. Qed.




Lemma fmap_alter_same {A B} (g : A -> B) (f : A -> A) (i : nat) (l : list A) :
  (forall x, g (f x) = g x) -> g <$> alter f i l = g <$> l.
Proof.
  intros H. revert i. induction l as [|x l IH]; intros [|i]; cbn; try reflexivity.
  - by rewrite H.
  - f_equal. apply IH.
Qed.




(** After the same payload, with distinct finding ids and strings that
    hold no markup ([plain_finding]), has been rendered twice into an
    empty table, the rows are those the parser builds, twice over, and the
    toggle of a failed finding in the second copy of the rows opens the
    evidence block of the first copy: its own block stays collapsed while
    its label changes, and the toggle above the opened block still reads
    Show Evidence. *)
Theorem toggle_after_second_render (md : Metadata) (st : Stats) (fs : list Finding)
    (w : World) (i : nat) (finding : Finding) :
  findings_tbody (document w) = [] ->
  NoDup (finding_id <$> fs) ->
  forallb plain_finding fs = true ->
  fs !! i = Some finding ->
  finding_status finding = "FAIL" ->
  let w2 := world_after (renderReport (payload md st fs);;
                         renderReport (payload md st fs)) w in
  let second := (length fs + i)%nat in
  let rows := findings_tbody
                (document (world_after (toggleEvidence (toggle_of_row second)) w2)) in
  Forall2 row_as_parsed (fs ++ fs) (findings_tbody (document w2))
  /\ completion_of (toggleEvidence (toggle_of_row second)) w2 = Normal tt
  /\ Dom.style_display <$> Dom.node_at rows (evidence_of_row i) = Some "block"
  /\ Dom.textContent <$> Dom.node_at rows (toggle_of_row i) = Some "Show Evidence"
  /\ Dom.style_display <$> Dom.node_at rows (evidence_of_row second) = Some EmptyString
  /\ Dom.textContent <$> Dom.node_at rows (toggle_of_row second) = Some "Hide Evidence".
Proof.
  intros Hempty Hnd Hplain Hi Hs w2 second rows.
  assert (Hf : is_FAIL finding = true) by (by apply is_FAIL_true).
  assert (Hlt : (i < length fs)%nat) by (by eapply lookup_lt_Some).
  split.
  { unfold w2, world_after. rewrite run_bind, !renderReport_payload. cbn [fst].
    unfold rendered. page_simpl. rewrite Hempty. cbn [app].
    apply Forall2_app; by apply table_rows_as_parsed. }
  set (ss := as_rendered <$> (fs ++ fs)).
  assert (H2 : findings_tbody (document w2) = table_in_state ss).
  { unfold w2, world_after. rewrite run_bind, !renderReport_payload. cbn [fst].
    unfold rendered. page_simpl. rewrite Hempty. cbn [app].
    rewrite !table_rows_as_rendered. unfold ss, table_in_state.
    by rewrite !fmap_app. }
  assert (Hfirst : ss !! i = Some (as_rendered finding)).
  { unfold ss. by rewrite list_lookup_fmap, lookup_app_l, Hi. }
  assert (Hsecond : ss !! second = Some (as_rendered finding)).
  { unfold ss, second. rewrite list_lookup_fmap, lookup_app_r by lia.
    replace (length fs + i - length fs)%nat with i by lia. by rewrite Hi. }
  assert (Howner : first_owner ("details-" +:+ finding_id finding) ss 0 = Some i).
  { apply first_owner_spec. exists (as_rendered finding). rewrite Nat.sub_0_r.
    repeat split; [lia|exact Hfirst| |].
    - unfold owns_block. cbn [as_rendered state_finding]. rewrite Hf. cbn [andb].
      apply String.eqb_refl.
    - intros m s Hm Hsm. unfold ss in Hsm.
      rewrite list_lookup_fmap, lookup_app_l in Hsm by lia.
      destruct (fs !! m) as [g|] eqn:Hg; [|discriminate Hsm].
      injection Hsm as <-. unfold owns_block. cbn [as_rendered state_finding].
      destruct (is_FAIL g); [|reflexivity]. cbn [andb].
      rewrite details_id_inj. apply String.eqb_neq. intros Heq.
      assert (m = i); [|lia].
      eapply (NoDup_lookup _ _ _ (finding_id finding) Hnd).
      + by rewrite list_lookup_fmap, Hg, <- Heq.
      + by rewrite list_lookup_fmap, Hi. }
  pose proof (toggleEvidence_in_table ss second i (as_rendered finding)
                (as_rendered finding) w2 H2 Hsecond Hf Howner Hfirst) as Hrun.
  change (is_collapsed (state_display (as_rendered finding))) with true in Hrun.
  cbv iota in Hrun.
  unfold completion_of, rows, world_after. rewrite Hrun. cbn [fst snd].
  rewrite tbody_after_set. split; [reflexivity|].
  set (ss' := alter _ second (alter _ i ss)).
  assert (Hi' : ss' !! i = Some (with_display "block" (as_rendered finding))).
  { unfold ss'. rewrite list_lookup_alter_ne by (unfold second; lia).
    by rewrite list_lookup_alter_eq, Hfirst. }
  assert (Hs' : ss' !! second = Some (with_label "Hide Evidence" (as_rendered finding))).
  { unfold ss'. rewrite list_lookup_alter_eq.
    rewrite list_lookup_alter_ne by (unfold second; lia). by rewrite Hsecond. }
  pose proof (failed_row_of_state _ _ _ Hi' Hf) as Hrowi.
  pose proof (failed_row_of_state _ _ _ Hs' Hf) as Hrows.
  destruct (toggle_then_evidence _ _ _ _ _ Hs Hrowi) as (_ & -> & ->).
  destruct (toggle_then_evidence _ _ _ _ _ Hs Hrows) as (_ & -> & ->).
  repeat split.
Qed.

(** The scenario rendered twice on a blank page. *)
Lemma toggle_after_second_render_witness :
  let w2 := world_after
              (renderReport (payload scenario_metadata scenario_stats scenario_findings);;
               renderReport (payload scenario_metadata scenario_stats scenario_findings))
              (blank_world None) in
  let rows := findings_tbody
                (document (world_after (toggleEvidence (toggle_of_row 2)) w2)) in
  Dom.style_display <$> Dom.node_at rows (evidence_of_row 0) = Some "block"
  /\ Dom.style_display <$> Dom.node_at rows (evidence_of_row 2) = Some EmptyString.
Proof.
  intros w2 rows.
  assert (Hnd : NoDup (finding_id <$> scenario_findings)).
  { apply (bool_decide_unpack _). vm_compute. exact I. }
  destruct (toggle_after_second_render scenario_metadata scenario_stats
              scenario_findings (blank_world None) 0 finding_CC15
              eq_refl Hnd eq_refl eq_refl eq_refl) as (_ & _ & H1 & _ & H2 & _).
  split; [exact H1 | exact H2].
Defined.

(** Called on the position a toggle would have in a row that is not the
    row of a failed finding, or in a row the table does not have,
    [toggleEvidence] throws a TypeError and changes nothing. *)
Theorem toggleEvidence_without_block (ss : list row_state) (i : nat) (w : World) :
  findings_tbody (document w) = table_in_state ss ->
  ss !! i = None
  \/ (exists s, ss !! i = Some s /\ is_FAIL (state_finding s) = false) ->
  toggleEvidence (toggle_of_row i) w = (w, Throw TypeError).
Proof.
  intros Hrows Hcase. unfold toggleEvidence.
  by rewrite Hrows, (no_sibling_without_block ss i Hcase).
Qed.

(** The row of the passed finding of the scenario. *)
Lemma toggleEvidence_without_block_witness :
  let w := world_after
             (renderReport (payload scenario_metadata scenario_stats scenario_findings))
             (blank_world None) in
  toggleEvidence (toggle_of_row 1) w = (w, Throw TypeError).
Proof.
  intros w.
  refine (toggleEvidence_without_block (as_rendered <$> scenario_findings) 1 w eq_refl _).
  right. exists (as_rendered finding_CC61). split; reflexivity.
Defined.

(** After the first click the toggle has period two: two more clicks
    bring back exactly the same page. *)
Theorem clicks_period_two (md : Metadata) (st : Stats) (fs : list Finding)
    (w : World) (i : nat) (finding : Finding) (n : nat) :
  findings_tbody (document w) = [] ->
  NoDup (finding_id <$> fs) ->
  fs !! i = Some finding ->
  finding_status finding = "FAIL" ->
  (1 <= n)%nat ->
  let w1 := world_after (renderReport (payload md st fs)) w in
  clicks (n + 2) (toggle_of_row i) w1 = clicks n (toggle_of_row i) w1.
Proof.
  intros Hempty Hnd Hi Hf Hn w1.
  assert (Hrows : findings_tbody (document w1)
                  = <[i := row_in_state finding (display_after 0) (label_after 0)]>
                      (table_rows fs)).
  { unfold w1. rewrite world_after_payload. unfold rendered. page_simpl.
    rewrite Hempty. cbn [app]. symmetry. apply list_insert_id.
    rewrite (table_rows_lookup _ _ _ Hi). f_equal. by apply failed_row_fresh. }
  rewrite !(clicks_run fs i finding Hnd Hi Hf _ 0%nat w1 Hrows). cbn [Nat.add].
  replace (n + 2)%nat with (S (S n)) by lia.
  destruct n as [|n]; [lia|]. reflexivity.
Qed.

(** One click and three clicks on the scenario. *)
Lemma clicks_period_two_witness :
  let w1 := world_after
              (renderReport (payload scenario_metadata scenario_stats scenario_findings))
              (blank_world None) in
  clicks 3 (toggle_of_row 0) w1 = clicks 1 (toggle_of_row 0) w1.
Proof.
  intros w1.
  assert (Hnd : NoDup (finding_id <$> scenario_findings)).
  { apply (bool_decide_unpack _). vm_compute. exact I. }
  exact (clicks_period_two scenario_metadata scenario_stats scenario_findings
           (blank_world None) 0 finding_CC15 1 eq_refl Hnd eq_refl eq_refl (le_n 1)).
Defined.

(** A click never changes which findings the table shows, nor their
    order: whatever position of a toggle it is made on, the table is again
    a table of rows for the same findings (at most one display and one
    label differ). *)
Theorem toggleEvidence_keeps_findings (ss : list row_state) (i : nat) (w : World) :
  findings_tbody (document w) = table_in_state ss ->
  exists ss',
    findings_tbody (document (world_after (toggleEvidence (toggle_of_row i)) w))
    = table_in_state ss'
    /\ state_finding <$> ss' = state_finding <$> ss.
Proof.
  intros Hrows. unfold world_after.
  destruct (ss !! i) as [s|] eqn:Hi.
  - destruct (is_FAIL (state_finding s)) eqn:Hf.
    + assert (Ho : owns_block ("details-" +:+ finding_id (state_finding s)) s = true).
      { unfold owns_block. rewrite Hf. cbn [andb]. apply String.eqb_refl. }
      destruct (first_owner_exists _ ss 0 i s Hi Ho) as (j & sj & Hj & Hsj & _).
      rewrite (toggleEvidence_in_table ss i j s sj w Hrows Hi Hf Hj Hsj). cbn [fst].
      eexists. split; [apply tbody_after_set|]. by rewrite !fmap_alter_same.
    + unfold toggleEvidence.
      rewrite Hrows, (no_sibling_without_block ss i) by eauto.
      exists ss. by split.
  - unfold toggleEvidence. rewrite Hrows, (no_sibling_without_block ss i) by eauto.
    exists ss. by split.
Qed.

(** On the scenario, after a click on the toggle of its first row. *)
Lemma toggleEvidence_keeps_findings_witness :
  let w := world_after
             (renderReport (payload scenario_metadata scenario_stats scenario_findings))
             (blank_world None) in
  exists ss',
    findings_tbody (document (world_after (toggleEvidence (toggle_of_row 0)) w))
    = table_in_state ss'
    /\ state_finding <$> ss' = scenario_findings.
Proof.
  intros w.
  exact (toggleEvidence_keeps_findings (as_rendered <$> scenario_findings) 0 w eq_refl).
Defined.

(** A payload whose counts are both zero, on a surface that shows a
    chart already. *)
Lemma renderReport_zero_total_keeps_chart_witness :
  let c := {| width := 200; height := 200; drawn := [BeginPath; Fill] |} in
  resultsChart
    (document (world_after
                 (renderReport (payload scenario_metadata {| pass := 0; fail := 0 |} []))
                 (blank_world (Some c))))
  = Some c.
Proof.
  intros c.
  exact (renderReport_zero_total_keeps_chart scenario_metadata {| pass := 0; fail := 0 |}
           [] (blank_world (Some c)) eq_refl).
Defined.

(** The scenario rendered twice on a blank surface of 200 by 200. *)
Lemma renderReport_twice_chart_witness :
  let c := {| width := 200; height := 200; drawn := [] |} in
  resultsChart
    (document (world_after
                 (renderReport (payload scenario_metadata scenario_stats scenario_findings);;
                  renderReport (payload scenario_metadata scenario_stats scenario_findings))
                 (blank_world (Some c))))
  = Some {| width := 200; height := 200;
            drawn := chart_ops c 2 1 ++ chart_ops c 2 1 |}.
Proof.
  intros c.
  refine (proj1 (renderReport_twice_chart scenario_metadata scenario_metadata
                   scenario_stats scenario_stats scenario_findings scenario_findings
                   (blank_world (Some c)) c eq_refl _ _)); discriminate.
Defined.
